(** * The Jules handoff poller ([jules_runner.py]): model and properties

    The poller reads a front-matter document from
    [shared/claude-to-jules-message.md], dispatches on its [action],
    writes a reply to [shared/jules-to-cc.md] and renames the input to
    [shared/processed-<stamp>.md].

    The program is embedded function by function.  What the program
    takes from its environment is kept apart from it:

    - the YAML library, [repr] and the text of exceptions are fields of
      a [Runtime]; the general theorems hold for every runtime;
    - the clock is an oracle indexed by the number of readings so far;
    - the file system is a finite map from canonical locations to
      nodes (regular files and directories), with POSIX path walking
      (".." is followed through existing directories).  There are no
      symbolic links, permissions or quotas: a system call fails only
      for the reasons the walk can see.

    Python strings are modelled by [string]; a character is a code
    point below 256. *)

From Stdlib Require Import String Ascii ZArith Lia DecimalString.
From stdpp Require Import gmap strings list.

(** ** Python string primitives *)

Fixpoint string_drop (n : nat) (s : string) : string :=
  match n, s with
  | 0, _ => s
  | S n', String _ s' => string_drop n' s'
  | S _, EmptyString => EmptyString
  end.

(** [content.startswith(pre)] *)
Definition startswith (s pre : string) : bool := String.prefix pre s.

(** First occurrence of [sep] in [s], scanning from the left: the text
    before it and the text after it. *)
Fixpoint find_sub (sep s : string) : option (string * string) :=
  if String.prefix sep s then Some (EmptyString, string_drop (String.length sep) s)
  else match s with
       | EmptyString => None
       | String c s' =>
           match find_sub sep s' with
           | Some (a, r) => Some (String c a, r)
           | None => None
           end
       end.

(** [s.split(sep, maxsplit)] for a non-empty separator. *)
Fixpoint py_split (sep s : string) (maxsplit : nat) : list string :=
  match maxsplit with
  | 0 => [s]
  | S n =>
      match find_sub sep s with
      | None => [s]
      | Some (a, r) => a :: py_split sep r n
      end
  end.

(** [str.isspace] on one character (code points below 256). *)
Definition is_space (c : ascii) : bool :=
  let n := nat_of_ascii c in
  (Nat.leb 9 n && Nat.leb n 13) || (Nat.leb 28 n && Nat.leb n 32)
  || Nat.eqb n 133 || Nat.eqb n 160.

Fixpoint lstrip (s : string) : string :=
  match s with
  | EmptyString => EmptyString
  | String c s' => if is_space c then lstrip s' else s
  end.

Fixpoint rstrip (s : string) : string :=
  match s with
  | EmptyString => EmptyString
  | String c s' =>
      match rstrip s' with
      | EmptyString => if is_space c then EmptyString else String c EmptyString
      | r => String c r
      end
  end.

(** [s.strip()] *)
Definition strip (s : string) : string := rstrip (lstrip s).

(** Decimal rendering, as [str(n)] for a non-negative integer. *)
Definition nat_to_string (n : nat) : string :=
  NilEmpty.string_of_uint (Nat.to_uint n).

(** Zero-padded field of a formatted time ([%02d], [%04d], [%06d]). *)
Fixpoint zeros (n : nat) : string :=
  match n with 0 => EmptyString | S n' => String "0" (zeros n') end.

Definition pad (width n : nat) : string :=
  let d := nat_to_string n in
  zeros (width - String.length d) +:+ d.

(** ** Python values *)

#[warnings="-register-all"] Inductive pyval : Type :=
| PNone
| PBool (b : bool)
| PInt (n : Z)
| PStr (s : string)
| PList (xs : list pyval)
| PDict (kvs : list (string * pyval)).

(** Dictionaries keep insertion order; keys are strings. *)
Fixpoint dict_get (k : string) (kvs : list (string * pyval)) : option pyval :=
  match kvs with
  | [] => None
  | (k', v) :: rest => if String.eqb k k' then Some v else dict_get k rest
  end.

Definition dict_get_default (k : string) (kvs : list (string * pyval))
    (dflt : pyval) : pyval :=
  match dict_get k kvs with Some v => v | None => dflt end.

(** [d[k] = v]: replaces in place, or appends a new key. *)
Fixpoint dict_set (k : string) (v : pyval) (kvs : list (string * pyval))
    : list (string * pyval) :=
  match kvs with
  | [] => [(k, v)]
  | (k', v') :: rest =>
      if String.eqb k k' then (k', v) :: rest else (k', v') :: dict_set k v rest
  end.

(** [{k: v for k, v in d.items() if k != key}] *)
Definition dict_without (key : string) (kvs : list (string * pyval))
    : list (string * pyval) :=
  List.filter (fun kv => negb (String.eqb (fst kv) key)) kvs.

Definition truthy (v : pyval) : bool :=
  match v with
  | PNone => false
  | PBool b => b
  | PInt n => negb (n =? 0)%Z
  | PStr s => negb (String.eqb s "")
  | PList xs => match xs with [] => false | _ => true end
  | PDict kvs => match kvs with [] => false | _ => true end
  end.

Definition type_name (v : pyval) : string :=
  match v with
  | PNone => "NoneType"
  | PBool _ => "bool"
  | PInt _ => "int"
  | PStr _ => "str"
  | PList _ => "list"
  | PDict _ => "dict"
  end.

(** [v == 'literal'] *)
Definition eq_str (v : pyval) (lit : string) : bool :=
  match v with PStr s => String.eqb s lit | _ => false end.

(** ** Exceptions *)

Inductive os_errno := ENOENT | EEXIST | ENOTDIR | EISDIR | ENOTEMPTY | EINVAL.

Inductive exn : Type :=
| AttributeError (type_of attr : string)
| TypeError (detail : string)
| OSError (errno : os_errno) (filename : string)
| YAMLError (detail : string).

Inductive result (A : Type) : Type :=
| Ok (a : A)
| Raise (e : exn).
Arguments Ok {A} a.
Arguments Raise {A} e.

(** ** Time *)

Record datetime := {
  year : nat; month : nat; day : nat;
  hour : nat; minute : nat; second : nat; microsecond : nat
}.

(** [dt.isoformat()] of an aware UTC datetime. *)
Definition isoformat (dt : datetime) : string :=
  pad 4 (year dt) +:+ "-" +:+ pad 2 (month dt) +:+ "-" +:+ pad 2 (day dt)
  +:+ "T" +:+ pad 2 (hour dt) +:+ ":" +:+ pad 2 (minute dt) +:+ ":"
  +:+ pad 2 (second dt)
  +:+ (if Nat.eqb (microsecond dt) 0 then "" else "." +:+ pad 6 (microsecond dt))
  +:+ "+00:00".

(** [dt.strftime("%Y%m%d-%H%M%S")] *)
Definition strftime_archive (dt : datetime) : string :=
  pad 4 (year dt) +:+ pad 2 (month dt) +:+ pad 2 (day dt) +:+ "-"
  +:+ pad 2 (hour dt) +:+ pad 2 (minute dt) +:+ pad 2 (second dt).

(** ** The runtime the program runs on *)

Record Runtime := {
  (** [yaml.safe_load] *)
  safe_load : string -> result pyval;
  (** [yaml.dump(data, default_flow_style=False)] *)
  dump : pyval -> string;
  (** [repr(v)] *)
  repr : pyval -> string;
  (** [str(e)] for a caught exception *)
  exn_str : exn -> string;
  (** the n-th reading of [datetime.now(timezone.utc)] *)
  utc_clock : nat -> datetime;
  (** the n-th reading of [datetime.now()] *)
  local_clock : nat -> datetime
}.

(** [str(v)], as used by f-strings. *)
Definition py_str (rt : Runtime) (v : pyval) : string :=
  match v with
  | PStr s => s
  | _ => repr rt v
  end.

(** ** Paths ([pathlib.PurePosixPath]) *)

Record Path := { is_absolute : bool; parts : list string }.

(** [s.split('/')] *)
Fixpoint split_slash (s : string) : list string :=
  match s with
  | EmptyString => [EmptyString]
  | String c s' =>
      if Ascii.eqb c "/" then EmptyString :: split_slash s'
      else match split_slash s' with
           | [] => [String c EmptyString]
           | h :: t => String c h :: t
           end
  end.

Definition is_name (c : string) : bool :=
  negb (String.eqb c "") && negb (String.eqb c ".").

(** [Path(s)]: empty and "." components are dropped, ".." is kept. *)
Definition parse_path (s : string) : Path :=
  {| is_absolute := startswith s "/";
     parts := List.filter is_name (split_slash s) |}.

(** [p / s]: an absolute right operand replaces the left one. *)
Definition path_div (p : Path) (s : string) : Path :=
  let q := parse_path s in
  if is_absolute q then q
  else {| is_absolute := is_absolute p; parts := parts p ++ parts q |}.

(** [p.parent] (lexical). *)
Definition path_parent (p : Path) : Path :=
  {| is_absolute := is_absolute p; parts := removelast (parts p) |}.

(** [p.name] *)
Definition path_name (p : Path) : string := List.last (parts p) "".

(** [str(p)] *)
Definition path_str (p : Path) : string :=
  if is_absolute p then "/" +:+ String.concat "/" (parts p)
  else match parts p with
       | [] => "."
       | cs => String.concat "/" cs
       end.

(** ** The file system *)

Inductive node := File (data : string) | Dir.

(** A location is the list of names from the root; the root itself is
    a directory and is not stored. *)
Definition node_at (fs : gmap (list string) node) (loc : list string)
    : option node :=
  match loc with
  | [] => Some Dir
  | _ => fs !! loc
  end.

Definition step (loc : list string) (c : string) : list string :=
  if String.eqb c ".." then removelast loc else loc ++ [c].

(** Path walk: every component is looked up in a directory. *)
Fixpoint walk (fs : gmap (list string) node) (loc : list string)
    (comps : list string) : os_errno + list string :=
  match comps with
  | [] => inr loc
  | c :: rest =>
      match node_at fs loc with
      | Some Dir => walk fs (step loc c) rest
      | Some (File _) => inl ENOTDIR
      | None => inl ENOENT
      end
  end.

Definition resolve (fs : gmap (list string) node) (cwd : list string)
    (p : Path) : os_errno + list string :=
  walk fs (if is_absolute p then [] else cwd) (parts p).

Definition sys_stat (fs : gmap (list string) node) (cwd : list string)
    (p : Path) : os_errno + node :=
  match resolve fs cwd p with
  | inl e => inl e
  | inr loc =>
      match node_at fs loc with
      | Some n => inr n
      | None => inl ENOENT
      end
  end.

Definition sys_mkdir (fs : gmap (list string) node) (cwd : list string)
    (p : Path) : os_errno + gmap (list string) node :=
  match resolve fs cwd p with
  | inl e => inl e
  | inr loc =>
      match node_at fs loc with
      | Some _ => inl EEXIST
      | None => inr (<[loc := Dir]> fs)
      end
  end.

(** [open(p, 'w')]: creates or truncates; the handle is the location. *)
Definition sys_open_w (fs : gmap (list string) node) (cwd : list string)
    (p : Path) : os_errno + (list string * gmap (list string) node) :=
  match resolve fs cwd p with
  | inl e => inl e
  | inr loc =>
      match node_at fs loc with
      | Some Dir => inl EISDIR
      | _ => inr (loc, <[loc := File ""]> fs)
      end
  end.

(** [open(p, 'r')] followed by [read()]. *)
Definition sys_read (fs : gmap (list string) node) (cwd : list string)
    (p : Path) : os_errno + string :=
  match sys_stat fs cwd p with
  | inl e => inl e
  | inr (File d) => inr d
  | inr Dir => inl EISDIR
  end.

Definition is_prefix_of (a b : list string) : bool :=
  bool_decide (take (length a) b = a).

Definition has_children (fs : gmap (list string) node) (loc : list string)
    : bool :=
  bool_decide (filter (fun kv => is_prefix_of loc kv.1 = true /\ kv.1 <> loc)
                 (map_to_list fs) <> []).

(** Moves the subtree rooted at [src] to [dst]. *)
Definition move_tree (fs : gmap (list string) node) (src dst : list string)
    : gmap (list string) node :=
  list_to_map
    (List.map (fun kv : list string * node =>
                 if is_prefix_of src kv.1
                 then (dst ++ drop (length src) kv.1, kv.2)
                 else kv)
       (map_to_list fs)).

(** [os.rename(src, dst)] *)
Definition sys_rename (fs : gmap (list string) node) (cwd : list string)
    (src dst : Path) : os_errno + gmap (list string) node :=
  match resolve fs cwd src, resolve fs cwd dst with
  | inl e, _ => inl e
  | _, inl e => inl e
  | inr s, inr d =>
      match node_at fs s with
      | None => inl ENOENT
      | Some (File data) =>
          match node_at fs d with
          | Some Dir => inl EISDIR
          | _ => inr (<[d := File data]> (delete s fs))
          end
      | Some Dir =>
          if bool_decide (s = d) then inr fs
          else if is_prefix_of s d then inl EINVAL
          else match node_at fs d with
               | Some (File _) => inl ENOTDIR
               | Some Dir =>
                   if has_children fs d then inl ENOTEMPTY
                   else inr (move_tree (delete d fs) s d)
               | None => inr (move_tree fs s d)
               end
      end
  end.

(** ** Program state and the state-and-exception monad *)

Record world := {
  fs : gmap (list string) node;
  cwd : list string;
  ticks : nat;
  stdout : list string;
  stderr : list string
}.

Definition set_fs (w : world) (f : gmap (list string) node) : world :=
  {| fs := f; cwd := cwd w; ticks := ticks w;
     stdout := stdout w; stderr := stderr w |}.

(** A computation keeps the state it reached when it raises. *)
Definition M (A : Type) : Type := world -> result A * world.

Definition ret {A} (a : A) : M A := fun w => (Ok a, w).
Definition raise {A} (e : exn) : M A := fun w => (Raise e, w).
Definition bind {A B} (m : M A) (k : A -> M B) : M B :=
  fun w => match m w with
           | (Ok a, w') => k a w'
           | (Raise e, w') => (Raise e, w')
           end.

(** [try: body except Exception as e: handler(e)] *)
Definition try_except {A} (body : M A) (handler : exn -> M A) : M A :=
  fun w => match body w with
           | (Ok a, w') => (Ok a, w')
           | (Raise e, w') => handler e w'
           end.

Notation "x <- m ;; k" := (bind m (fun x => k))
  (at level 61, m at level 60, k at level 61, right associativity,
   only parsing).

(** *** Clock and standard streams *)

Definition tick (w : world) : world :=
  {| fs := fs w; cwd := cwd w; ticks := S (ticks w);
     stdout := stdout w; stderr := stderr w |}.

(** [datetime.now(timezone.utc)] *)
Definition now_utc (rt : Runtime) : M datetime :=
  fun w => (Ok (utc_clock rt (ticks w)), tick w).

(** [datetime.now()] *)
Definition now_local (rt : Runtime) : M datetime :=
  fun w => (Ok (local_clock rt (ticks w)), tick w).

Definition print_stdout (line : string) : M unit :=
  fun w => (Ok tt, {| fs := fs w; cwd := cwd w; ticks := ticks w;
                      stdout := stdout w ++ [line]; stderr := stderr w |}).

Definition print_stderr (line : string) : M unit :=
  fun w => (Ok tt, {| fs := fs w; cwd := cwd w; ticks := ticks w;
                      stdout := stdout w; stderr := stderr w ++ [line] |}).

(** *** Operations on Python values *)

Definition LF : string := String (ascii_of_nat 10) EmptyString.

(** [obj.get(key, dflt)] *)
Definition py_get (obj : pyval) (key : string) (dflt : pyval) : M pyval :=
  match obj with
  | PDict kvs => ret (dict_get_default key kvs dflt)
  | v => raise (AttributeError (type_name v) "get")
  end.

(** [obj.items()] *)
Definition py_items (obj : pyval) : M (list (string * pyval)) :=
  match obj with
  | PDict kvs => ret kvs
  | v => raise (AttributeError (type_name v) "items")
  end.

(** [obj[key] = v]; the updated object is returned. *)
Definition py_setitem (obj : pyval) (key : string) (v : pyval) : M pyval :=
  match obj with
  | PDict kvs => ret (PDict (dict_set key v kvs))
  | o => raise (TypeError ("'" +:+ type_name o
                           +:+ "' object does not support item assignment"))
  end.

(** [len(obj)] *)
Definition py_len (obj : pyval) : M nat :=
  match obj with
  | PStr s => ret (String.length s)
  | PList xs => ret (length xs)
  | PDict kvs => ret (length kvs)
  | v => raise (TypeError ("object of type '" +:+ type_name v
                           +:+ "' has no len()"))
  end.

(** [text + obj] for a string [text] *)
Definition py_concat (text : string) (obj : pyval) : M string :=
  match obj with
  | PStr s => ret (text +:+ s)
  | v => raise (TypeError ("can only concatenate str (not " +:+ type_name v
                           +:+ ") to str"))
  end.

(** [base / obj] for a path [base] *)
Definition py_path_div (base : Path) (obj : pyval) : M Path :=
  match obj with
  | PStr s => ret (path_div base s)
  | v => raise (TypeError ("unsupported operand type(s) for /: 'PosixPath' and '"
                           +:+ type_name v +:+ "'"))
  end.

(** *** File operations *)

(** [p.exists()] *)
Definition path_exists (p : Path) : M bool :=
  fun w => (Ok (match sys_stat (fs w) (cwd w) p with
                | inr _ => true
                | inl _ => false
                end), w).

(** [p.is_dir()] *)
Definition path_is_dir (p : Path) : M bool :=
  fun w => (Ok (match sys_stat (fs w) (cwd w) p with
                | inr Dir => true
                | _ => false
                end), w).

(** [os.mkdir(p)] *)
Definition os_mkdir (p : Path) : M unit :=
  fun w => match sys_mkdir (fs w) (cwd w) p with
           | inl e => (Raise (OSError e (path_str p)), w)
           | inr f => (Ok tt, set_fs w f)
           end.

(** [p.mkdir(parents=False, exist_ok=exist_ok)] *)
Definition mkdir_plain (exist_ok : bool) (p : Path) : M unit :=
  try_except (os_mkdir p) (fun e =>
    match e with
    | OSError ENOENT _ => raise e
    | OSError _ _ =>
        d <- path_is_dir p ;;
        if negb exist_ok || negb d then raise e else ret tt
    | _ => raise e
    end).

(** [p.mkdir(parents=True, exist_ok=True)]; [n] bounds the number of
    lexical parents. *)
Fixpoint mkdir_parents_from (n : nat) (p : Path) : M unit :=
  try_except (os_mkdir p) (fun e =>
    match e with
    | OSError ENOENT _ =>
        match n with
        | 0 => raise e
        | S n' =>
            _ <- mkdir_parents_from n' (path_parent p) ;;
            mkdir_plain true p
        end
    | OSError _ _ =>
        d <- path_is_dir p ;;
        if d then ret tt else raise e
    | _ => raise e
    end).

Definition mkdir_parents (p : Path) : M unit :=
  mkdir_parents_from (length (parts p)) p.

(** [open(p, 'w')] *)
Definition open_w (p : Path) : M (list string) :=
  fun w => match sys_open_w (fs w) (cwd w) p with
           | inl e => (Raise (OSError e (path_str p)), w)
           | inr (loc, f) => (Ok loc, set_fs w f)
           end.

(** [f.write(data)] on a handle opened for writing *)
Definition file_write (f : list string) (data : pyval) : M unit :=
  match data with
  | PStr s =>
      fun w =>
        let old := match fs w !! f with Some (File d) => d | _ => "" end in
        (Ok tt, set_fs w (<[f := File (old +:+ s)]> (fs w)))
  | v => raise (TypeError ("write() argument must be str, not " +:+ type_name v))
  end.

(** [with open(p, 'w') as f: f.write(data)] *)
Definition write_file (p : Path) (data : pyval) : M unit :=
  f <- open_w p ;;
  file_write f data.

(** [with open(p, 'r') as f: f.read()] *)
Definition read_text (p : Path) : M string :=
  fun w => match sys_read (fs w) (cwd w) p with
           | inl e => (Raise (OSError e (path_str p)), w)
           | inr d => (Ok d, w)
           end.

(** [src.rename(dst)] *)
Definition path_rename (src dst : Path) : M unit :=
  fun w => match sys_rename (fs w) (cwd w) src dst with
           | inl e => (Raise (OSError e (path_str src)), w)
           | inr f => (Ok tt, set_fs w f)
           end.

(** ** The program: class [HandoffPoller] *)

Record HandoffPoller := {
  workspace : Path;
  shared_dir : Path;
  input_file : Path;
  output_file : Path;
  schema_file : Path
}.

(** The attribute assignments of [__init__]. *)
Definition new_poller (workspace_path : string) : HandoffPoller :=
  let ws := parse_path workspace_path in
  let shared := path_div ws "shared" in
  {| workspace := ws;
     shared_dir := shared;
     input_file := path_div shared "claude-to-jules-message.md";
     output_file := path_div shared "jules-to-cc.md";
     schema_file := path_div shared "schema.md" |}.

(** [HandoffPoller.__init__] *)
Definition HandoffPoller_init (workspace_path : string) : M HandoffPoller :=
  let self := new_poller workspace_path in
  _ <- mkdir_plain true (shared_dir self) ;;
  ret self.

Definition status_message (status message : string) : list (string * pyval) :=
  [("status", PStr status); ("message", PStr message)].

Section Poller.

Variable rt : Runtime.
Variable self : HandoffPoller.

Definition log_error (message : string) : M unit :=
  timestamp <- now_utc rt ;;
  print_stderr ("[" +:+ isoformat timestamp +:+ "] ERROR: " +:+ message).

Definition log_info (message : string) : M unit :=
  timestamp <- now_utc rt ;;
  print_stdout ("[" +:+ isoformat timestamp +:+ "] INFO: " +:+ message).

Definition yaml_safe_load (text : string) : M pyval :=
  fun w => match safe_load rt text with
           | Ok v => (Ok v, w)
           | Raise e => (Raise e, w)
           end.

(** The fallback of [read_message]: a plain message. *)
Definition plain_message (content : string) : M (option pyval) :=
  now <- now_utc rt ;;
  ret (Some (PDict [("id", PStr (isoformat now));
                    ("from", PStr "cc");
                    ("for", PStr "jules");
                    ("action", PStr "message");
                    ("payload", PDict [("content", PStr content)])])).

Definition read_message : M (option pyval) :=
  present <- path_exists (input_file self) ;;
  if negb present then ret None
  else
    try_except
      (content <- read_text (input_file self) ;;
       if startswith content "---" then
         let parts := py_split "---" content 2 in
         if Nat.leb 3 (length parts) then
           let yaml_content := strip (nth 1 parts "") in
           let message_body := strip (nth 2 parts "") in
           metadata <- yaml_safe_load yaml_content ;;
           metadata <- py_setitem metadata "body" (PStr message_body) ;;
           ret (Some metadata)
         else plain_message content
       else plain_message content)
      (fun e =>
         _ <- log_error ("Failed to read message: " +:+ exn_str rt e) ;;
         ret None).

Definition handle_add_file (payload : pyval) : M pyval :=
  file_path <- py_get payload "path" PNone ;;
  contents <- py_get payload "contents" PNone ;;
  if negb (truthy file_path)
     || match contents with PNone => true | _ => false end
  then ret (PDict (status_message "error" "Missing path or contents"))
  else
    target_path <- py_path_div (workspace self) file_path ;;
    _ <- mkdir_parents (path_parent target_path) ;;
    _ <- write_file target_path contents ;;
    ret (PDict [("status", PStr "success");
                ("message", PStr ("File created: " +:+ py_str rt file_path));
                ("path", PStr (path_str target_path))]).

Definition handle_run_task (payload : pyval) : M pyval :=
  task <- py_get payload "task" (PStr "No task specified") ;;
  now <- now_utc rt ;;
  ret (PDict [("status", PStr "acknowledged");
              ("message", PStr ("Task received: " +:+ py_str rt task));
              ("timestamp", PStr (isoformat now))]).

Definition handle_message (payload : pyval) : M pyval :=
  content <- py_get payload "content" (PStr "Empty message") ;;
  n <- py_len content ;;
  now <- now_utc rt ;;
  ret (PDict [("status", PStr "received");
              ("message", PStr ("Message acknowledged: " +:+ nat_to_string n
                                +:+ " characters"));
              ("timestamp", PStr (isoformat now))]).

(** The [if]/[elif] chain inside the [try] of [process_message]. *)
Definition dispatch (action payload : pyval) : M pyval :=
  if eq_str action "add_file" then handle_add_file payload
  else if eq_str action "run_task" then handle_run_task payload
  else if eq_str action "message" then handle_message payload
  else ret (PDict (status_message "error"
                     ("Unknown action: " +:+ py_str rt action))).

Definition process_message (message : pyval) : M pyval :=
  action <- py_get message "action" (PStr "unknown") ;;
  payload <- py_get message "payload" (PDict []) ;;
  now <- now_utc rt ;;
  sender <- py_get message "from" (PStr "cc") ;;
  let response :=
    [("id", PStr (isoformat now));
     ("from", PStr "jules");
     ("for", sender);
     ("action", PStr (py_str rt action +:+ "_response"));
     ("payload", PDict [])] in
  try_except
    (result <- dispatch action payload ;;
     ret (PDict (dict_set "payload" result response)))
    (fun e =>
       ret (PDict (dict_set "payload"
                     (PDict (status_message "error"
                               ("Error processing " +:+ py_str rt action
                                +:+ ": " +:+ exn_str rt e)))
                     response))).

Definition write_response (response : pyval) : M unit :=
  try_except
    (items <- py_items response ;;
     let yaml_data := dict_without "body" items in
     action <- py_get response "action" (PStr "unknown") ;;
     body <- py_get response "body"
               (PStr ("Response to " +:+ py_str rt action)) ;;
     let content := "---" +:+ LF in
     let content := content +:+ dump rt (PDict yaml_data) in
     let content := content +:+ "---" +:+ LF +:+ LF in
     content <- py_concat content body ;;
     write_file (output_file self) (PStr content))
    (fun e => log_error ("Failed to write response: " +:+ exn_str rt e)).

Definition archive_path_at (now : datetime) : Path :=
  path_div (shared_dir self)
    ("processed-" +:+ strftime_archive now +:+ ".md").

Definition poll_once : M bool :=
  message <- read_message ;;
  match message with
  | None => ret false
  | Some message =>
      if negb (truthy message) then ret false
      else
        action <- py_get message "action" (PStr "unknown") ;;
        _ <- log_info ("Processing message: " +:+ py_str rt action) ;;
        response <- process_message message ;;
        _ <- write_response response ;;
        now <- now_local rt ;;
        let archive_path := archive_path_at now in
        present <- path_exists (input_file self) ;;
        _ <- (if present then path_rename (input_file self) archive_path
         else ret tt) ;;
        _ <- log_info ("Response written, message archived to "
                  +:+ path_name archive_path) ;;
        ret true
  end.

(** [time.sleep(seconds)].  The clocks of the model are indexed by the
    number of readings, so waiting leaves the state as it is. *)
Definition time_sleep (seconds : nat) : M unit := ret tt.

(** The first [turns] turns of the loop of [run_poller]:
    [while True: self.poll_once(); time.sleep(interval)]. *)
Fixpoint poll_loop (interval turns : nat) : M unit :=
  match turns with
  | 0 => ret tt
  | S n =>
      _ <- poll_once ;;
      _ <- time_sleep interval ;;
      poll_loop interval n
  end.

(** [run_poller], followed for [turns] turns of its loop.  The loop has
    no exit of its own: the result [Ok tt] says that the poller is
    still running after [turns] turns, [Raise e] that it crashed.  An
    interrupt from the keyboard is not part of the model. *)
Definition run_poller (interval turns : nat) : M unit :=
  _ <- log_info ("Starting handoff poller (interval: "
                 +:+ nat_to_string interval +:+ "s)") ;;
  try_except (poll_loop interval turns)
    (fun e =>
       _ <- log_error ("Poller crashed: " +:+ exn_str rt e) ;;
       raise e).

End Poller.

(** ** The program: [main] *)

Definition default_workspace : string := "/mnt/c/Users/david/jules-workspace".

(** Whether the string names its target through a trailing separator
    or [.], which only a directory satisfies. *)
Definition must_be_dir (s : string) : bool :=
  negb (is_name (List.last (split_slash s) "")).

(** [os.path.exists(s)] on a string: unlike a [Path], the empty string
    names nothing and a trailing separator needs a directory. *)
Definition os_path_exists (s : string) : M bool :=
  fun w => (Ok (match s with
                | EmptyString => false
                | _ =>
                    match sys_stat (fs w) (cwd w) (parse_path s) with
                    | inr Dir => true
                    | inr (File _) => negb (must_be_dir s)
                    | inl _ => false
                    end
                end), w).

(** How [main] ends when no exception escapes: it returns, or
    [sys.exit(status)] is called. *)
Inductive ending := Returns | SysExit (status : nat).

(** [main], with the environment and the command line as arguments;
    [turns] bounds the loop of [run_poller] as above. *)
Definition main (rt : Runtime) (environ : gmap string string)
    (argv : list string) (turns : nat) : M ending :=
  let workspace :=
    default default_workspace (environ !! "ASSISTANT_PROJECT_ROOT") in
  present <- os_path_exists workspace ;;
  if negb present then
    _ <- print_stderr ("ERROR: Workspace not found: " +:+ workspace) ;;
    ret (SysExit 1)
  else
    poller <- HandoffPoller_init workspace ;;
    if existsb (String.eqb "--check-once") argv then
      processed <- poll_once rt poller ;;
      _ <- (if processed
            then print_stdout "Message processed successfully"
            else print_stdout "No messages to process") ;;
      ret Returns
    else
      _ <- run_poller rt poller 10 turns ;;
      ret Returns.

(** ** A reference runtime

    The theorems below hold for every [Runtime].  Closed examples need
    one that computes.  [Reference] implements the part of PyYAML 6
    (an external library), of [repr] and of [str(e)] that the examples
    use:

    - [dump]: block style with sorted keys, as
      [yaml.dump(v, default_flow_style=False)] prints mappings with
      string keys, sequences, [None], booleans, integers and strings.
      A string is written plain, single-quoted or double-quoted by the
      rules of PyYAML's emitter; a string that begins with a digit, a
      sign or a dot is taken to resolve to a number or a timestamp and
      is quoted.  Lines are not folded: the fragment is that of
      scalars that fit in 80 columns.
    - [safe_load]: block mappings, one [key: value] per line, nested
      by indentation, with plain, single-quoted and double-quoted scalars
      (escapes for newline, tab, backslash, quote and two hexadecimal
      digits), [{}] and [[]]; a document that is a single scalar.  Anything else is reported as [YAMLError]. *)

Module Reference.

Definition code (c : ascii) : nat := nat_of_ascii c.

Definition is_digit (c : ascii) : bool :=
  Nat.leb 48 (code c) && Nat.leb (code c) 57.

Definition is_letter (c : ascii) : bool :=
  (Nat.leb 65 (code c) && Nat.leb (code c) 90)
  || (Nat.leb 97 (code c) && Nat.leb (code c) 122).

Definition is_printable (c : ascii) : bool :=
  Nat.leb 32 (code c) && Nat.leb (code c) 126.

Definition dquote : ascii := ascii_of_nat 34.
Definition squote : ascii := ascii_of_nat 39.
Definition backslash : ascii := ascii_of_nat 92.

Fixpoint string_forallb (p : ascii -> bool) (s : string) : bool :=
  match s with
  | EmptyString => true
  | String c s' => p c && string_forallb p s'
  end.

Fixpoint string_mem (c : ascii) (s : string) : bool :=
  match s with
  | EmptyString => false
  | String c' s' => Ascii.eqb c c' || string_mem c s'
  end.

Definition contains (sub s : string) : bool :=
  match find_sub sub s with Some _ => true | None => false end.

Fixpoint ends_with_char (c : ascii) (s : string) : bool :=
  match s with
  | EmptyString => false
  | String c' EmptyString => Ascii.eqb c c'
  | String _ s' => ends_with_char c s'
  end.

Fixpoint drop_last (s : string) : string :=
  match s with
  | EmptyString => EmptyString
  | String _ EmptyString => EmptyString
  | String c s' => String c (drop_last s')
  end.

Definition in_words (s : string) (ws : list string) : bool :=
  existsb (String.eqb s) ws.

Definition bool_true_words : list string :=
  ["yes"; "Yes"; "YES"; "true"; "True"; "TRUE"; "on"; "On"; "ON"].
Definition bool_false_words : list string :=
  ["no"; "No"; "NO"; "false"; "False"; "FALSE"; "off"; "Off"; "OFF"].
Definition null_words : list string := ["~"; "null"; "Null"; "NULL"; ""].

Definition numeric_start (s : string) : bool :=
  match s with
  | EmptyString => false
  | String c _ => is_digit c || string_mem c "+-."
  end.

(** Whether the implicit resolver leaves a plain scalar a string. *)
Definition resolves_to_str (s : string) : bool :=
  negb (in_words s bool_true_words) && negb (in_words s bool_false_words)
  && negb (in_words s null_words) && negb (in_words s ["<<"; "="])
  && negb (numeric_start s).

(** *** Emitter *)

Definition is_break_or_space (c : ascii) : bool :=
  existsb (Nat.eqb (code c)) [0; 32; 9; 13; 10; 133].

Definition followed_by_whitespace (rest : string) : bool :=
  match rest with
  | EmptyString => true
  | String c _ => is_break_or_space c
  end.

Definition leading_indicators : string :=
  "#,[]{}&*!|>%@`" +:+ String squote (String dquote EmptyString).

Definition leading_block_indicator (s : string) : bool :=
  match s with
  | EmptyString => false
  | String c rest =>
      String.prefix "---" s || String.prefix "..." s
      || string_mem c leading_indicators
      || (string_mem c "?:-" && followed_by_whitespace rest)
  end.

Fixpoint inner_block_indicator (preceded : bool) (s : string) : bool :=
  match s with
  | EmptyString => false
  | String c rest =>
      (Ascii.eqb c ":" && followed_by_whitespace rest)
      || (Ascii.eqb c "#" && preceded)
      || inner_block_indicator (is_break_or_space c) rest
  end.

Definition allow_block_plain (s : string) : bool :=
  match s with
  | EmptyString => false
  | String c rest =>
      string_forallb is_printable s
      && negb (Ascii.eqb c " ") && negb (ends_with_char " " s)
      && negb (leading_block_indicator s)
      && negb (inner_block_indicator (is_break_or_space c) rest)
  end.

Fixpoint double_quotes (s : string) : string :=
  match s with
  | EmptyString => EmptyString
  | String c s' =>
      if Ascii.eqb c squote then String c (String c (double_quotes s'))
      else String c (double_quotes s')
  end.

Definition hex_digit (n : nat) : ascii :=
  ascii_of_nat (if Nat.ltb n 10 then 48 + n else 55 + n).

Definition escape_char (c : ascii) : string :=
  let esc (x : string) := String backslash x in
  let n := code c in
  if Nat.eqb n 0 then esc "0" else if Nat.eqb n 7 then esc "a"
  else if Nat.eqb n 8 then esc "b" else if Nat.eqb n 9 then esc "t"
  else if Nat.eqb n 10 then esc "n" else if Nat.eqb n 11 then esc "v"
  else if Nat.eqb n 12 then esc "f" else if Nat.eqb n 13 then esc "r"
  else if Nat.eqb n 27 then esc "e" else if Nat.eqb n 133 then esc "N"
  else if Nat.eqb n 160 then esc "_"
  else if Ascii.eqb c dquote then esc (String dquote EmptyString)
  else if Ascii.eqb c backslash then esc (String backslash EmptyString)
  else if is_printable c then String c EmptyString
  else esc (String "x" (String (hex_digit (n / 16))
                          (String (hex_digit (n mod 16)) EmptyString))).

Fixpoint escape (s : string) : string :=
  match s with
  | EmptyString => EmptyString
  | String c s' => escape_char c +:+ escape s'
  end.

(** A string scalar in block context. *)
Definition emit_str (s : string) : string :=
  if resolves_to_str s && allow_block_plain s then s
  else if string_forallb is_printable s
  then String squote (double_quotes s) +:+ String squote EmptyString
  else String dquote (escape s) +:+ String dquote EmptyString.

Definition emit_int (n : Z) : string :=
  NilZero.string_of_int (Z.to_int n).

Inductive rendered :=
| Inline (text : string)
| BlockMap (lines : list string)
| BlockSeq (lines : list string).

Definition indent2 (l : string) : string := "  " +:+ l.

Fixpoint insert_sorted (kv : string * rendered)
    (l : list (string * rendered)) : list (string * rendered) :=
  match l with
  | [] => [kv]
  | kv' :: rest =>
      if String.leb kv.1 kv'.1 then kv :: l
      else kv' :: insert_sorted kv rest
  end.

Definition sort_items (l : list (string * rendered))
    : list (string * rendered) :=
  List.fold_right insert_sorted [] l.

Definition emit_entry (kv : string * rendered) : list string :=
  match kv.2 with
  | Inline t => [emit_str kv.1 +:+ ": " +:+ t]
  | BlockMap ls => (emit_str kv.1 +:+ ":") :: List.map indent2 ls
  | BlockSeq ls => (emit_str kv.1 +:+ ":") :: ls
  end.

Definition emit_item (r : rendered) : list string :=
  match r with
  | Inline t => ["- " +:+ t]
  | BlockMap ls | BlockSeq ls =>
      match ls with
      | [] => []
      | l :: rest => ("- " +:+ l) :: List.map indent2 rest
      end
  end.

Fixpoint render (v : pyval) : rendered :=
  match v with
  | PNone => Inline "null"
  | PBool b => Inline (if b then "true" else "false")
  | PInt n => Inline (emit_int n)
  | PStr s => Inline (emit_str s)
  | PList [] => Inline "[]"
  | PList xs => BlockSeq (List.concat (List.map (fun x => emit_item (render x)) xs))
  | PDict [] => Inline "{}"
  | PDict kvs =>
      BlockMap
        (List.concat
           (List.map emit_entry
              (sort_items
                 (List.map (fun kv : string * pyval =>
                              let (k, x) := kv in (k, render x)) kvs))))
  end.

Definition unlines (ls : list string) : string :=
  List.fold_right (fun l acc => l +:+ LF +:+ acc) "" ls.

Definition yaml_dump (v : pyval) : string :=
  match render v with
  | Inline t => t +:+ LF
  | BlockMap ls | BlockSeq ls => unlines ls
  end.

(** *** Loader *)

Record yline := { indent : nat; key : string; value : string }.

Fixpoint count_indent (s : string) : nat * string :=
  match s with
  | String c s' =>
      if Ascii.eqb c " " then let (n, r) := count_indent s' in (S n, r)
      else (0, s)
  | EmptyString => (0, s)
  end.

Fixpoint strip_spaces_right (s : string) : string :=
  match s with
  | EmptyString => EmptyString
  | String c s' =>
      match strip_spaces_right s' with
      | EmptyString => if Ascii.eqb c " " then EmptyString
                       else String c EmptyString
      | r => String c r
      end
  end.

Definition strip_spaces (s : string) : string :=
  strip_spaces_right (snd (count_indent s)).

Definition is_key_char (c : ascii) : bool :=
  is_letter c || is_digit c || string_mem c "_-".

Definition plain_key (k : string) : bool :=
  match k with
  | EmptyString => false
  | String c _ =>
      (is_letter c || Ascii.eqb c "_")
      && string_forallb is_key_char k && resolves_to_str k
  end.

Definition unsupported {A} : result A :=
  Raise (YAMLError "outside the modelled fragment").

Fixpoint unquote_single (s : string) : option string :=
  match s with
  | EmptyString => Some EmptyString
  | String c s' =>
      if Ascii.eqb c squote then
        match s' with
        | String c' s'' =>
            if Ascii.eqb c' squote
            then option_map (String squote) (unquote_single s'')
            else None
        | EmptyString => None
        end
      else option_map (String c) (unquote_single s')
  end.

Fixpoint digits_value (acc : Z) (s : string) : Z :=
  match s with
  | EmptyString => acc
  | String c s' => digits_value (10 * acc + Z.of_nat (code c - 48)) s'
  end.

Definition hex_value (c : ascii) : option nat :=
  if is_digit c then Some (code c - 48)
  else if Nat.leb 97 (code c) && Nat.leb (code c) 102 then Some (code c - 87)
  else if Nat.leb 65 (code c) && Nat.leb (code c) 70 then Some (code c - 55)
  else None.

(** The body of a double-quoted scalar on one line, with the escapes
    for newline, tab, backslash, double quote and [\xHH]. *)
Fixpoint unescape_double (s : string) : option string :=
  match s with
  | EmptyString => Some EmptyString
  | String c s' =>
      if Ascii.eqb c dquote then None
      else if Ascii.eqb c backslash then
        match s' with
        | String e s'' =>
            if Ascii.eqb e "n"
            then option_map (String (ascii_of_nat 10)) (unescape_double s'')
            else if Ascii.eqb e "t"
            then option_map (String (ascii_of_nat 9)) (unescape_double s'')
            else if Ascii.eqb e backslash || Ascii.eqb e dquote
            then option_map (String e) (unescape_double s'')
            else if Ascii.eqb e "x" then
              match s'' with
              | String h1 (String h2 s3) =>
                  match hex_value h1, hex_value h2 with
                  | Some a, Some b =>
                      option_map (String (ascii_of_nat (16 * a + b)))
                        (unescape_double s3)
                  | _, _ => None
                  end
              | _ => None
              end
            else None
        | EmptyString => None
        end
      else option_map (String c) (unescape_double s')
  end.

Definition decimal_literal (s : string) : bool :=
  match s with
  | EmptyString => false
  | String c rest =>
      string_forallb is_digit s
      && (negb (Ascii.eqb c "0") || String.eqb rest "")
  end.

(** A scalar in value position (already stripped of blanks). *)
Definition load_scalar (v : string) : result pyval :=
  match v with
  | EmptyString => Ok PNone
  | String c rest =>
      if String.eqb v "{}" then Ok (PDict [])
      else if String.eqb v "[]" then Ok (PList [])
      else if Ascii.eqb c squote then
        if ends_with_char squote rest then
          match unquote_single (drop_last rest) with
          | Some s => Ok (PStr s)
          | None => Raise (YAMLError "while scanning a quoted scalar")
          end
        else Raise (YAMLError "while scanning a quoted scalar")
      else if Ascii.eqb c dquote then
        if ends_with_char dquote rest then
          match unescape_double (drop_last rest) with
          | Some s => Ok (PStr s)
          | None => unsupported
          end
        else unsupported
      else if negb (allow_block_plain v) || contains " #" v then unsupported
      else if in_words v null_words then Ok PNone
      else if in_words v bool_true_words then Ok (PBool true)
      else if in_words v bool_false_words then Ok (PBool false)
      else if decimal_literal v then Ok (PInt (digits_value 0 v))
      else if resolves_to_str v then Ok (PStr v)
      else unsupported
  end.

(** One line: blank ([Ok None]) or [key: value]. *)
Definition load_line (l : string) : result (option yline) :=
  let (n, r) := count_indent l in
  match r with
  | EmptyString => Ok None
  | _ =>
      let entry :=
        match find_sub ": " r with
        | Some (k, v) => Some (k, strip_spaces v)
        | None => if ends_with_char ":" r then Some (drop_last r, "")
                  else None
        end in
      match entry with
      | Some (k, v) =>
          if plain_key k
          then Ok (Some {| indent := n; key := k; value := v |})
          else unsupported
      | None => unsupported
      end
  end.

Fixpoint load_lines (ls : list string) : result (list yline) :=
  match ls with
  | [] => Ok []
  | l :: rest =>
      match load_line l, load_lines rest with
      | Raise e, _ => Raise e
      | _, Raise e => Raise e
      | Ok None, Ok ys => Ok ys
      | Ok (Some y), Ok ys => Ok (y :: ys)
      end
  end.

Definition to_dict (entries : list (string * pyval)) : pyval :=
  PDict (List.fold_left (fun d kv => dict_set kv.1 kv.2 d) entries []).

(** The entries at indentation [ind], and the lines left over. *)
Fixpoint load_block (fuel ind : nat) (ls : list yline)
    : result (list (string * pyval) * list yline) :=
  match fuel with
  | 0 => unsupported
  | S fuel' =>
      match ls with
      | [] => Ok ([], [])
      | l :: rest =>
          if Nat.ltb (indent l) ind then Ok ([], ls)
          else if Nat.ltb ind (indent l)
          then Raise (YAMLError "while parsing a block mapping")
          else
            let item :=
              match value l, rest with
              | EmptyString, l2 :: _ =>
                  if Nat.ltb ind (indent l2) then
                    match load_block fuel' (indent l2) rest with
                    | Ok (sub, rest') => Ok (to_dict sub, rest')
                    | Raise e => Raise e
                    end
                  else Ok (PNone, rest)
              | v, _ =>
                  match load_scalar v with
                  | Ok x => Ok (x, rest)
                  | Raise e => Raise e
                  end
              end in
            match item with
            | Raise e => Raise e
            | Ok (x, rest') =>
                match load_block fuel' ind rest' with
                | Ok (more, rest'') => Ok ((key l, x) :: more, rest'')
                | Raise e => Raise e
                end
            end
      end
  end.

Definition lines_of (text : string) : list string :=
  py_split LF text (String.length text).

Definition is_entry_line (l : string) : bool :=
  contains ": " l || ends_with_char ":" l.

Definition yaml_safe_load (text : string) : result pyval :=
  let ls := List.filter (fun l => negb (String.eqb (strip_spaces l) ""))
              (lines_of text) in
  match ls with
  | [] => Ok PNone
  | [l] =>
      if is_entry_line l then
        match load_lines ls with
        | Ok ys =>
            match load_block (S (2 * length ys)) 0 ys with
            | Ok (entries, _) => Ok (to_dict entries)
            | Raise e => Raise e
            end
        | Raise e => Raise e
        end
      else load_scalar (strip_spaces l)
  | _ =>
      match load_lines ls with
      | Ok ys =>
          match load_block (S (2 * length ys)) 0 ys with
          | Ok (entries, _) => Ok (to_dict entries)
          | Raise e => Raise e
          end
      | Raise e => Raise e
      end
  end.

(** *** [repr] and [str(e)] *)

Definition quoted (s : string) : string :=
  String squote s +:+ String squote EmptyString.

Definition comma_join (ls : list string) : string := String.concat ", " ls.

(** [repr]; strings are taken to need no escapes. *)
Fixpoint py_repr (v : pyval) : string :=
  match v with
  | PNone => "None"
  | PBool b => if b then "True" else "False"
  | PInt n => emit_int n
  | PStr s => quoted s
  | PList xs => "[" +:+ comma_join (List.map py_repr xs) +:+ "]"
  | PDict kvs =>
      "{" +:+ comma_join
                (List.map (fun kv : string * pyval =>
                             let (k, x) := kv in
                             quoted k +:+ ": " +:+ py_repr x) kvs)
      +:+ "}"
  end.

Definition strerror (e : os_errno) : string :=
  match e with
  | ENOENT => "[Errno 2] No such file or directory"
  | EEXIST => "[Errno 17] File exists"
  | ENOTDIR => "[Errno 20] Not a directory"
  | EISDIR => "[Errno 21] Is a directory"
  | ENOTEMPTY => "[Errno 39] Directory not empty"
  | EINVAL => "[Errno 22] Invalid argument"
  end.

Definition py_exn_str (e : exn) : string :=
  match e with
  | AttributeError t a =>
      quoted t +:+ " object has no attribute " +:+ quoted a
  | TypeError d => d
  | OSError errno filename => strerror errno +:+ ": " +:+ quoted filename
  | YAMLError d => d
  end.

(** Both clocks start on 4 November 2026, 12:00:00, and advance by
    one second per reading. *)
Definition clock (n : nat) : datetime :=
  {| year := 2026; month := 11; day := 4;
     hour := 12; minute := 0; second := n; microsecond := 0 |}.

Definition runtime : Runtime :=
  {| safe_load := yaml_safe_load;
     dump := yaml_dump;
     repr := py_repr;
     exn_str := py_exn_str;
     utc_clock := clock;
     local_clock := clock |}.

End Reference.

(** ** Example inputs *)

Module Examples.

Definition self : HandoffPoller := new_poller "/ws".

Definition shared : list string := ["ws"; "shared"].

(** A workspace whose shared directory holds the given files. *)
Definition workspace_with (files : list (string * string))
    : gmap (list string) node :=
  List.fold_right
    (fun nf m => <[shared ++ [nf.1] := File nf.2]> m)
    (<[shared := Dir]> (<[["ws"] := Dir]> ∅))
    files.

Definition world_of (f : gmap (list string) node) : world :=
  {| fs := f; cwd := []; ticks := 0; stdout := []; stderr := [] |}.

(** A workspace with one input document. *)
Definition inbox (document : string) : world :=
  world_of (workspace_with [("claude-to-jules-message.md", document)]).

Definition lines (ls : list string) : string := String.concat LF ls.

Definition run_poll (w : world) : result bool * world :=
  poll_once Reference.runtime self w.

Definition front_matter (fields : list string) (body : string) : string :=
  lines (["---"] ++ fields ++ ["---"; body]).

(** The scenario of the specification. *)
Definition doc_hello : string :=
  front_matter ["action: message"; "from: cc"; "for: jules"] "Hello".



(** The structured section is a scalar, not a mapping. *)
Definition doc_scalar : string := front_matter ["just text"] "body".


Definition input_loc : list string :=
  shared ++ ["claude-to-jules-message.md"].


Definition parsed_hello : list (string * pyval) :=
  [("action", PStr "message"); ("from", PStr "cc"); ("for", PStr "jules");
   ("body", PStr "Hello")].

(** The output document of the cycle on [doc_hello] (reference
    runtime, clock started at 12:00:00). *)
Definition hello_reply : string :=
  lines ["---";
         "action: message_response";
         "for: cc";
         "from: jules";
         "id: '2026-11-04T12:00:01+00:00'";
         "payload:";
         "  message: 'Message acknowledged: 13 characters'";
         "  status: received";
         "  timestamp: '2026-11-04T12:00:02+00:00'";
         "---";
         "";
         "Response to message_response"].

(** An unknown action whose name contains the delimiter; in the
    document the first hyphen is written as an escape. *)
Definition doc_dashes : string :=
  front_matter
    ["action: " +:+ String Reference.dquote "a\x2D--b"
     +:+ String Reference.dquote "";
     "from: cc"; "for: jules"] "Go".

Definition parsed_dashes : list (string * pyval) :=
  [("action", PStr "a---b"); ("from", PStr "cc"); ("for", PStr "jules");
   ("body", PStr "Go")].

(** The output document of the cycle on [doc_dashes]. *)
Definition dashes_reply : string :=
  lines ["---";
         "action: a---b_response";
         "for: cc";
         "from: jules";
         "id: '2026-11-04T12:00:01+00:00'";
         "payload:";
         "  message: 'Unknown action: a---b'";
         "  status: error";
         "---";
         "";
         "Response to a---b_response"].







Definition read_at (w : world) (p : string) : os_errno + string :=
  sys_read (fs w) (cwd w) (parse_path p).

(** A workspace with no input document. *)
Definition idle : world := world_of (workspace_with []).

(** A workspace directory that has no shared directory yet. *)
Definition bare : world := world_of (<[["ws"] := Dir]> ∅).

(** A workspace in which [shared] is a regular file. *)
Definition shared_is_file : world :=
  world_of (<[shared := File "x"]> (<[["ws"] := Dir]> ∅)).

(** A workspace in which the input path is a directory. *)
Definition input_is_directory : world :=
  world_of (<[input_loc := Dir]> (workspace_with [])).


End Examples.

(** ** Vocabulary of the statements *)

(** The payload of the guard in [handle_add_file]. *)
Definition missing_path_or_contents : pyval :=
  PDict (status_message "error" "Missing path or contents").

(** A key that is absent or holds [None]. *)
Definition is_null (o : option pyval) : Prop := o = None \/ o = Some PNone.

(** The response [process_message] builds around a payload. *)
Definition response_fields (rt : Runtime) (d : list (string * pyval))
    (now : datetime) (payload : pyval) : list (string * pyval) :=
  [("id", PStr (isoformat now));
   ("from", PStr "jules");
   ("for", dict_get_default "from" d (PStr "cc"));
   ("action",
    PStr (py_str rt (dict_get_default "action" d (PStr "unknown"))
          +:+ "_response"));
   ("payload", payload)].

Definition response_of (rt : Runtime) (d : list (string * pyval))
    (now : datetime) (payload : pyval) : pyval :=
  PDict (response_fields rt d now payload).

(** The document [write_response] writes for such a response. *)
Definition response_document (rt : Runtime) (d : list (string * pyval))
    (now : datetime) (payload : pyval) : string :=
  ((("---" +:+ LF) +:+ dump rt (response_of rt d now payload))
   +:+ "---" +:+ LF +:+ LF)
  +:+ "Response to "
  +:+ py_str rt (dict_get_default "action" d (PStr "unknown"))
  +:+ "_response".

(** The payload that replaces a handler's exception. *)
Definition error_payload (rt : Runtime) (action : pyval) (e : exn) : pyval :=
  PDict (status_message "error"
           ("Error processing " +:+ py_str rt action +:+ ": "
            +:+ exn_str rt e)).


(** The text [write_response] builds for a mapping. *)
Definition document_of (rt : Runtime) (resp : list (string * pyval))
    : result string :=
  let action := dict_get_default "action" resp (PStr "unknown") in
  match dict_get_default "body" resp
          (PStr ("Response to " +:+ py_str rt action)) with
  | PStr body =>
      Ok (((("---" +:+ LF) +:+ dump rt (PDict (dict_without "body" resp)))
           +:+ "---" +:+ LF +:+ LF) +:+ body)
  | v => Raise (TypeError ("can only concatenate str (not " +:+ type_name v
                           +:+ ") to str"))
  end.

(** Directories stay directories and regular files stay regular files
    (their content may change); new nodes may appear. *)
Definition fs_extends (f f' : gmap (list string) node) : Prop :=
  forall loc,
    (node_at f loc = Some Dir -> node_at f' loc = Some Dir)
    /\ (forall c, node_at f loc = Some (File c) ->
                  exists c', node_at f' loc = Some (File c')).

Definition world_extends (w w' : world) : Prop :=
  cwd w' = cwd w /\ fs_extends (fs w) (fs w').

(** Directories stay directories. *)
Definition dirs_kept (f f' : gmap (list string) node) : Prop :=
  forall loc, node_at f loc = Some Dir -> node_at f' loc = Some Dir.

(** A string without a path separator. *)
Fixpoint no_slash (s : string) : bool :=
  match s with
  | EmptyString => true
  | String c s' => negb (Ascii.eqb c "/") && no_slash s'
  end.

(** The file name of the archive made at local time [now]. *)
Definition archive_name (now : datetime) : string :=
  "processed-" +:+ strftime_archive now +:+ ".md".

(** [p / name] for a single ordinary name. *)
Definition child (p : Path) (name : string) : Path :=
  {| is_absolute := is_absolute p; parts := parts p ++ [name] |}.

(** The state in which [poll_once] calls [process_message]: after the
    line "Processing message: ..." has been logged. *)
Definition announced (rt : Runtime) (d : list (string * pyval)) (w : world)
    : world :=
  snd (log_info rt
         ("Processing message: "
          +:+ py_str rt (dict_get_default "action" d (PStr "unknown"))) w).

(** A computation that only ever extends the file system. *)
Definition monotone {A} (m : M A) : Prop :=
  forall w r w', m w = (r, w') -> world_extends w w'.

(** Two mappings with the same [action], [from], [for] and [id]. *)
Definition same_envelope (a b : list (string * pyval)) : Prop :=
  dict_get "action" a = dict_get "action" b
  /\ dict_get "from" a = dict_get "from" b
  /\ dict_get "for" a = dict_get "for" b
  /\ dict_get "id" a = dict_get "id" b.

(** Whether the last character is a hyphen. *)
Fixpoint last_is_dash (s : string) : bool :=
  match s with
  | EmptyString => false
  | String c EmptyString => Ascii.eqb c "-"
  | String _ s' => last_is_dash s'
  end.

(** An exception raised by a system call. *)
Definition is_os_error (e : exn) : Prop :=
  exists errno name, e = OSError errno name.

(** Whether a path names a directory. *)
Definition names_dir (w : world) (p : Path) : Prop :=
  sys_stat (fs w) (cwd w) p = inr Dir.


(** The payload of [handle_message] for a content of length [n]. *)
Definition received_payload (n : nat) (now : datetime) : pyval :=
  PDict [("status", PStr "received");
         ("message", PStr ("Message acknowledged: " +:+ nat_to_string n
                           +:+ " characters"));
         ("timestamp", PStr (isoformat now))].

(** The payload of [handle_run_task] for a task. *)
Definition acknowledged_payload (rt : Runtime) (task : pyval)
    (now : datetime) : pyval :=
  PDict [("status", PStr "acknowledged");
         ("message", PStr ("Task received: " +:+ py_str rt task));
         ("timestamp", PStr (isoformat now))].

(** A location keeps its kind: a directory stays a directory, a
    regular file a regular file (its content may change). *)
Definition kind_kept (f f' : gmap (list string) node) (loc : list string)
    : Prop :=
  (node_at f loc = Some Dir -> node_at f' loc = Some Dir)
  /\ (forall c, node_at f loc = Some (File c) ->
                exists c', node_at f' loc = Some (File c')).

(** From [w] to [w'] nothing is removed or changes its kind, the file
    named by [p] apart: the working directory is the same, every
    directory is still a directory and every regular file other than
    [p] still a regular file; where [p] leads nowhere the file system
    is the same. *)
Definition keeps_all_but (p : Path) (w w' : world) : Prop :=
  cwd w' = cwd w
  /\ match resolve (fs w) (cwd w) p with
     | inl _ => fs w' = fs w
     | inr s =>
         dirs_kept (fs w) (fs w')
         /\ forall loc, loc <> s -> kind_kept (fs w) (fs w') loc
     end.

(** The line [log_error] prints for a message at the reading [now]. *)
Definition error_line (now : datetime) (message : string) : string :=
  "[" +:+ isoformat now +:+ "] ERROR: " +:+ message.

(** The line [log_info] prints for a message at the reading [now]. *)
Definition info_line (now : datetime) (message : string) : string :=
  "[" +:+ isoformat now +:+ "] INFO: " +:+ message.

(** * Properties *)

(** ** The file system *)

Section FileSystem.

Implicit Types (f : gmap (list string) node) (loc : list string).

Lemma fs_extends_refl f : fs_extends f f.
Proof. intros loc. split; eauto. Qed.

Lemma fs_extends_trans f1 f2 f3 :
  fs_extends f1 f2 -> fs_extends f2 f3 -> fs_extends f1 f3.
Proof.
  intros H12 H23 loc. split.
  - intros H. apply H23, H12, H.
  - intros c H. destruct (proj2 (H12 loc) c H) as [c' H'].
    apply (proj2 (H23 loc) c' H').
Qed.

Lemma node_at_root_dir f loc : node_at f loc <> Some Dir -> loc <> [].
Proof. intros H ->. apply H. reflexivity. Qed.

Lemma node_at_insert f loc n l :
  loc <> [] ->
  node_at (<[loc := n]> f) l
  = if decide (loc = l) then Some n else node_at f l.
Proof.
  intros Hne. destruct l as [| x l].
  - simpl. destruct (decide (loc = [])); [contradiction | reflexivity].
  - simpl. apply lookup_insert.
Qed.

Lemma node_at_delete f loc l :
  loc <> [] ->
  node_at (delete loc f) l = if decide (loc = l) then None else node_at f l.
Proof.
  intros Hne. destruct l as [| x l].
  - simpl. destruct (decide (loc = [])); [contradiction | reflexivity].
  - simpl. apply lookup_delete.
Qed.

(** Creating a directory where nothing was. *)
Lemma fs_extends_mkdir f loc :
  node_at f loc = None -> fs_extends f (<[loc := Dir]> f).
Proof.
  intros Hnone l.
  assert (loc <> []) by (apply (node_at_root_dir f); congruence).
  rewrite node_at_insert by assumption.
  destruct (decide (loc = l)) as [<- |]; split; intros; eauto; congruence.
Qed.

(** Creating or rewriting a regular file. *)
Lemma fs_extends_write f loc c :
  node_at f loc <> Some Dir -> fs_extends f (<[loc := File c]> f).
Proof.
  intros Hnd l.
  assert (loc <> []) by (apply (node_at_root_dir f); assumption).
  rewrite node_at_insert by assumption.
  destruct (decide (loc = l)) as [<- |]; split; intros; eauto; congruence.
Qed.

Lemma walk_app f loc a b :
  walk f loc (a ++ b)
  = match walk f loc a with
    | inr l => walk f l b
    | inl e => inl e
    end.
Proof.
  revert loc. induction a as [| c a IH]; intros loc; simpl; [reflexivity |].
  destruct (node_at f loc) as [[|] |]; auto.
Qed.

Lemma fs_extends_dirs_kept f f' : fs_extends f f' -> dirs_kept f f'.
Proof. intros H loc. apply H. Qed.

(** A successful walk stays the same while directories are kept. *)
Lemma walk_dirs_kept f f' loc comps l :
  dirs_kept f f' -> walk f loc comps = inr l -> walk f' loc comps = inr l.
Proof.
  intros Hext. revert loc. induction comps as [| c comps IH]; intros loc;
    simpl; [auto |].
  destruct (node_at f loc) as [[|] |] eqn:Hn; try discriminate.
  rewrite (Hext loc Hn). apply IH.
Qed.

Lemma resolve_dirs_kept f f' dir p l :
  dirs_kept f f' -> resolve f dir p = inr l -> resolve f' dir p = inr l.
Proof. unfold resolve. apply walk_dirs_kept. Qed.

Lemma resolve_extends f f' dir p l :
  fs_extends f f' -> resolve f dir p = inr l -> resolve f' dir p = inr l.
Proof. intros H. apply resolve_dirs_kept, fs_extends_dirs_kept, H. Qed.

(** Resolving [p / name]: [p] must resolve to a directory. *)
Lemma resolve_child f dir p name :
  name <> ".." ->
  resolve f dir (child p name)
  = match resolve f dir p with
    | inl e => inl e
    | inr l =>
        match node_at f l with
        | Some Dir => inr (l ++ [name])
        | Some (File _) => inl ENOTDIR
        | None => inl ENOENT
        end
    end.
Proof.
  intros Hname. unfold resolve, child. simpl. rewrite walk_app.
  destruct (walk f _ (parts p)) as [e | l]; [reflexivity |].
  simpl. destruct (node_at f l) as [[|] |]; try reflexivity.
  unfold step. apply String.eqb_neq in Hname. rewrite Hname. reflexivity.
Qed.

Lemma resolve_child_inv f dir p name l :
  name <> ".." ->
  resolve f dir (child p name) = inr l ->
  exists l0, resolve f dir p = inr l0 /\ node_at f l0 = Some Dir
             /\ l = l0 ++ [name].
Proof.
  intros Hname. rewrite resolve_child by assumption.
  destruct (resolve f dir p) as [e | l0]; [discriminate |].
  destruct (node_at f l0) as [[|] |] eqn:Hn; try discriminate.
  intros [= <-]. eauto.
Qed.

Lemma split_slash_no_slash s : no_slash s = true -> split_slash s = [s].
Proof.
  induction s as [| c s IH]; simpl; [reflexivity |].
  intros H. apply andb_true_iff in H as [Hc Hs].
  apply negb_true_iff in Hc. rewrite Hc, (IH Hs). reflexivity.
Qed.

Lemma no_slash_app a b :
  no_slash a = true -> no_slash b = true -> no_slash (a +:+ b) = true.
Proof.
  induction a as [| c a IH]; simpl; [auto |].
  intros H Hb. apply andb_true_iff in H as [Hc Ha].
  rewrite Hc, (IH Ha Hb). reflexivity.
Qed.

Lemma no_slash_uint u : no_slash (NilEmpty.string_of_uint u) = true.
Proof. induction u; simpl; auto. Qed.

Lemma no_slash_zeros n : no_slash (zeros n) = true.
Proof. induction n; simpl; auto. Qed.

Lemma no_slash_pad width n : no_slash (pad width n) = true.
Proof.
  unfold pad. apply no_slash_app; [apply no_slash_zeros |].
  apply no_slash_uint.
Qed.

Lemma no_slash_archive_name now : no_slash (archive_name now) = true.
Proof.
  unfold archive_name, strftime_archive.
  repeat first [apply no_slash_pad | apply no_slash_app | reflexivity].
Qed.

(** [p / name] appends the name when it has no separator. *)
Lemma path_div_name p c s :
  no_slash (String c s) = true -> String c s <> "." ->
  path_div p (String c s) = child p (String c s).
Proof.
  intros Hns Hdot. unfold path_div, parse_path, startswith.
  rewrite (split_slash_no_slash _ Hns).
  simpl in Hns. apply andb_true_iff in Hns as [Hc _].
  apply negb_true_iff in Hc.
  assert (Hp : String.prefix "/" (String c s) = false).
  { change (String.prefix "/" (String c s))
      with (if ascii_dec "/" c then String.prefix "" s else false).
    destruct (ascii_dec "/" c) as [<- |]; [| reflexivity].
    rewrite Ascii.eqb_refl in Hc. discriminate. }
  rewrite Hp. simpl. unfold is_name.
  apply String.eqb_neq in Hdot. rewrite Hdot. reflexivity.
Qed.

Lemma sys_rename_file f dir src dst s d data :
  resolve f dir src = inr s -> resolve f dir dst = inr d ->
  node_at f s = Some (File data) ->
  sys_rename f dir src dst
  = match node_at f d with
    | Some Dir => inl EISDIR
    | _ => inr (<[d := File data]> (delete s f))
    end.
Proof.
  intros Hs Hd Hn. unfold sys_rename. rewrite Hs, Hd, Hn. reflexivity.
Qed.

Lemma node_at_renamed f s d data l :
  s <> [] -> d <> [] ->
  node_at (<[d := File data]> (delete s f)) l
  = if decide (d = l) then Some (File data)
    else if decide (s = l) then None else node_at f l.
Proof.
  intros Hs Hd. rewrite node_at_insert by assumption.
  destruct (decide (d = l)); [reflexivity |].
  apply node_at_delete, Hs.
Qed.

Lemma dirs_kept_renamed f s d data data' :
  node_at f s = Some (File data') -> node_at f d <> Some Dir ->
  dirs_kept f (<[d := File data]> (delete s f)).
Proof.
  intros Hs Hd l Hl.
  assert (s <> []) by (apply (node_at_root_dir f); congruence).
  assert (d <> []) by (apply (node_at_root_dir f); assumption).
  rewrite node_at_renamed by assumption.
  destruct (decide (d = l)) as [-> |]; [contradiction |].
  destruct (decide (s = l)) as [-> |]; [congruence | assumption].
Qed.

Lemma sys_read_inv f dir p data :
  sys_read f dir p = inr data ->
  exists l, resolve f dir p = inr l /\ node_at f l = Some (File data).
Proof.
  unfold sys_read, sys_stat.
  destruct (resolve f dir p) as [e | l]; [discriminate |].
  destruct (node_at f l) as [[c |] |] eqn:Hn; try discriminate.
  intros [= ->]. eauto.
Qed.

Lemma sys_read_at f dir p l data :
  resolve f dir p = inr l -> node_at f l = Some (File data) ->
  sys_read f dir p = inr data.
Proof.
  intros Hr Hn. unfold sys_read, sys_stat. rewrite Hr, Hn. reflexivity.
Qed.

Lemma sys_stat_at f dir p l :
  resolve f dir p = inr l ->
  sys_stat f dir p
  = match node_at f l with Some n => inr n | None => inl ENOENT end.
Proof. intros Hr. unfold sys_stat. rewrite Hr. reflexivity. Qed.

Lemma snoc_inj loc (a b : string) : loc ++ [a] = loc ++ [b] -> a = b.
Proof. intros H. apply app_inv_head in H. congruence. Qed.

(** The file system after the input [i] has been renamed to [a] in
    the directory at [L]. *)
Lemma archived_state f dir shared L i a data :
  resolve f dir shared = inr L -> node_at f L = Some Dir ->
  node_at f (L ++ [i]) = Some (File data) ->
  node_at f (L ++ [a]) <> Some Dir ->
  i <> a -> i <> ".." -> a <> ".." ->
  let f' := <[L ++ [a] := File data]> (delete (L ++ [i]) f) in
  sys_stat f' dir (child shared i) = inl ENOENT
  /\ sys_read f' dir (child shared a) = inr data
  /\ forall p l,
       resolve f dir p = inr l -> l <> L ++ [i] -> l <> L ++ [a] ->
       resolve f' dir p = inr l /\ node_at f' l = node_at f l.
Proof.
  intros HL HLd Hi Ha Hia Hi' Ha'. cbv zeta.
  pose proof (dirs_kept_renamed f _ _ data data Hi Ha) as Hk.
  assert (Hs : L ++ [i] <> []) by (destruct L; discriminate).
  assert (Hd : L ++ [a] <> []) by (destruct L; discriminate).
  pose proof (resolve_dirs_kept _ _ _ _ _ Hk HL) as HL'.
  pose proof (Hk _ HLd) as HLd'.
  split; [| split].
  - unfold sys_stat. rewrite resolve_child, HL', HLd' by assumption.
    rewrite node_at_renamed by assumption.
    destruct (decide (L ++ [a] = L ++ [i])) as [E |].
    { apply snoc_inj in E. congruence. }
    destruct (decide (L ++ [i] = L ++ [i])); [reflexivity | contradiction].
  - eapply sys_read_at.
    + rewrite resolve_child, HL', HLd' by assumption. reflexivity.
    + rewrite node_at_renamed by assumption.
      destruct (decide (L ++ [a] = L ++ [a])); [reflexivity | contradiction].
  - intros p l Hp Hli Hla. split.
    + eapply resolve_dirs_kept; eassumption.
    + rewrite node_at_renamed by assumption.
      destruct (decide (L ++ [a] = l)); [congruence |].
      destruct (decide (L ++ [i] = l)); [congruence | reflexivity].
Qed.

End FileSystem.

(** ** Every step before the archive only extends the file system *)

Section Monotone.

Variable rt : Runtime.
Variable self : HandoffPoller.

Lemma world_extends_refl w : world_extends w w.
Proof. split; [reflexivity | apply fs_extends_refl]. Qed.

Lemma world_extends_trans w1 w2 w3 :
  world_extends w1 w2 -> world_extends w2 w3 -> world_extends w1 w3.
Proof.
  intros [C12 F12] [C23 F23]. split; [congruence |].
  eapply fs_extends_trans; eassumption.
Qed.

Lemma world_extends_same_fs w w' :
  fs w' = fs w -> cwd w' = cwd w -> world_extends w w'.
Proof.
  intros Hf Hc. split; [assumption |]. rewrite Hf. apply fs_extends_refl.
Qed.

Lemma monotone_ret {A} (a : A) : monotone (ret a).
Proof. intros w r w' [= <- <-]. apply world_extends_refl. Qed.

Lemma monotone_raise {A} (e : exn) : monotone (@raise A e).
Proof. intros w r w' [= <- <-]. apply world_extends_refl. Qed.

Lemma monotone_bind {A B} (m : M A) (k : A -> M B) :
  monotone m -> (forall a, monotone (k a)) -> monotone (bind m k).
Proof.
  intros Hm Hk w r w'. unfold bind.
  destruct (m w) as [[a | e] w1] eqn:E; intros H.
  - eapply world_extends_trans; [eapply Hm, E | eapply Hk, H].
  - injection H as <- <-. eapply Hm, E.
Qed.

Lemma monotone_try_except {A} (m : M A) (h : exn -> M A) :
  monotone m -> (forall e, monotone (h e)) -> monotone (try_except m h).
Proof.
  intros Hm Hh w r w'. unfold try_except.
  destruct (m w) as [[a | e] w1] eqn:E; intros H.
  - injection H as <- <-. eapply Hm, E.
  - eapply world_extends_trans; [eapply Hm, E | eapply Hh, H].
Qed.

Lemma monotone_now_utc : monotone (now_utc rt).
Proof. intros w r w' [= <- <-]. apply world_extends_same_fs; reflexivity. Qed.

Lemma monotone_now_local : monotone (now_local rt).
Proof. intros w r w' [= <- <-]. apply world_extends_same_fs; reflexivity. Qed.

Lemma monotone_print_stdout l : monotone (print_stdout l).
Proof. intros w r w' [= <- <-]. apply world_extends_same_fs; reflexivity. Qed.

Lemma monotone_print_stderr l : monotone (print_stderr l).
Proof. intros w r w' [= <- <-]. apply world_extends_same_fs; reflexivity. Qed.

Lemma monotone_log_error msg : monotone (log_error rt msg).
Proof.
  apply monotone_bind; [apply monotone_now_utc |].
  intros. apply monotone_print_stderr.
Qed.

Lemma monotone_log_info msg : monotone (log_info rt msg).
Proof.
  apply monotone_bind; [apply monotone_now_utc |].
  intros. apply monotone_print_stdout.
Qed.

Lemma monotone_py_get o k d : monotone (py_get o k d).
Proof. destruct o; first [apply monotone_ret | apply monotone_raise]. Qed.

Lemma monotone_py_items o : monotone (py_items o).
Proof. destruct o; first [apply monotone_ret | apply monotone_raise]. Qed.

Lemma monotone_py_setitem o k v : monotone (py_setitem o k v).
Proof. destruct o; first [apply monotone_ret | apply monotone_raise]. Qed.

Lemma monotone_py_len o : monotone (py_len o).
Proof. destruct o; first [apply monotone_ret | apply monotone_raise]. Qed.

Lemma monotone_py_concat t o : monotone (py_concat t o).
Proof. destruct o; first [apply monotone_ret | apply monotone_raise]. Qed.

Lemma monotone_py_path_div b o : monotone (py_path_div b o).
Proof. destruct o; first [apply monotone_ret | apply monotone_raise]. Qed.

Lemma monotone_path_exists p : monotone (path_exists p).
Proof. intros w r w' [= <- <-]. apply world_extends_refl. Qed.

Lemma monotone_path_is_dir p : monotone (path_is_dir p).
Proof. intros w r w' [= <- <-]. apply world_extends_refl. Qed.

Lemma monotone_read_text p : monotone (read_text p).
Proof.
  intros w r w'. unfold read_text.
  destruct (sys_read _ _ _); intros [= <- <-]; apply world_extends_refl.
Qed.

Lemma monotone_yaml_safe_load t : monotone (yaml_safe_load rt t).
Proof.
  intros w r w'. unfold yaml_safe_load.
  destruct (safe_load rt t); intros [= <- <-]; apply world_extends_refl.
Qed.

Lemma monotone_os_mkdir p : monotone (os_mkdir p).
Proof.
  intros w r w'. unfold os_mkdir, sys_mkdir.
  destruct (resolve _ _ _) as [e | loc].
  { intros [= <- <-]. apply world_extends_refl. }
  destruct (node_at (fs w) loc) eqn:Hn; intros [= <- <-].
  - apply world_extends_refl.
  - split; [reflexivity |]. simpl. apply fs_extends_mkdir, Hn.
Qed.

Lemma monotone_mkdir_plain b p : monotone (mkdir_plain b p).
Proof.
  apply monotone_try_except; [apply monotone_os_mkdir |].
  intros [| | [] |]; try apply monotone_raise;
    (apply monotone_bind; [apply monotone_path_is_dir |]; intros d;
     destruct (negb b || negb d);
     [apply monotone_raise | apply monotone_ret]).
Qed.

Lemma monotone_mkdir_parents_from n p : monotone (mkdir_parents_from n p).
Proof.
  revert p. induction n as [| n IH]; intros p; simpl;
    (apply monotone_try_except; [apply monotone_os_mkdir |]);
    intros [| | [] |]; try apply monotone_raise;
    try (apply monotone_bind; [apply monotone_path_is_dir |]; intros [|];
         [apply monotone_ret | apply monotone_raise]).
  apply monotone_bind; [apply IH |]. intros _. apply monotone_mkdir_plain.
Qed.

Lemma monotone_write_file p data : monotone (write_file p data).
Proof.
  intros w r w'. unfold write_file, bind, open_w, sys_open_w.
  destruct (resolve _ _ _) as [e | loc].
  { intros [= <- <-]. apply world_extends_refl. }
  assert (Hcase : node_at (fs w) loc = Some Dir
                  \/ node_at (fs w) loc <> Some Dir).
  { destruct (node_at (fs w) loc) as [[|] |]; auto; right; discriminate. }
  destruct Hcase as [Hd | Hnd].
  { rewrite Hd. intros [= <- <-]. apply world_extends_refl. }
  assert (Hw : forall c, world_extends w
                 (set_fs w (<[loc := File c]> (fs w)))).
  { intros c. split; [reflexivity |]. simpl. apply fs_extends_write, Hnd. }
  assert (Hopen : match node_at (fs w) loc with
                  | Some Dir => inl EISDIR
                  | _ => inr (loc, <[loc := File ""]> (fs w))
                  end = inr (loc, <[loc := File ""]> (fs w))).
  { destruct (node_at (fs w) loc) as [[|] |]; auto; contradiction. }
  rewrite Hopen. destruct data; simpl; intros [= <- <-]; try apply Hw.
  rewrite lookup_insert_eq, insert_insert_eq. apply Hw.
Qed.

Lemma monotone_handle_add_file payload :
  monotone (handle_add_file rt self payload).
Proof.
  unfold handle_add_file.
  apply monotone_bind; [apply monotone_py_get | intros file_path].
  apply monotone_bind; [apply monotone_py_get | intros contents].
  destruct (negb (truthy file_path) || _); [apply monotone_ret |].
  apply monotone_bind; [apply monotone_py_path_div | intros target].
  apply monotone_bind; [apply monotone_mkdir_parents_from | intros _].
  apply monotone_bind; [apply monotone_write_file | intros _].
  apply monotone_ret.
Qed.

Lemma monotone_handle_run_task payload :
  monotone (handle_run_task rt payload).
Proof.
  unfold handle_run_task.
  apply monotone_bind; [apply monotone_py_get | intros task].
  apply monotone_bind; [apply monotone_now_utc | intros now].
  apply monotone_ret.
Qed.

Lemma monotone_handle_message payload :
  monotone (handle_message rt payload).
Proof.
  unfold handle_message.
  apply monotone_bind; [apply monotone_py_get | intros content].
  apply monotone_bind; [apply monotone_py_len | intros n].
  apply monotone_bind; [apply monotone_now_utc | intros now].
  apply monotone_ret.
Qed.

Lemma monotone_dispatch action payload :
  monotone (dispatch rt self action payload).
Proof.
  unfold dispatch.
  destruct (eq_str action "add_file"); [apply monotone_handle_add_file |].
  destruct (eq_str action "run_task"); [apply monotone_handle_run_task |].
  destruct (eq_str action "message"); [apply monotone_handle_message |].
  apply monotone_ret.
Qed.

Lemma monotone_process_message message :
  monotone (process_message rt self message).
Proof.
  unfold process_message.
  apply monotone_bind; [apply monotone_py_get | intros action].
  apply monotone_bind; [apply monotone_py_get | intros payload].
  apply monotone_bind; [apply monotone_now_utc | intros now].
  apply monotone_bind; [apply monotone_py_get | intros sender].
  apply monotone_try_except.
  - apply monotone_bind; [apply monotone_dispatch |].
    intros. apply monotone_ret.
  - intros. apply monotone_ret.
Qed.

Lemma monotone_write_response response :
  monotone (write_response rt self response).
Proof.
  unfold write_response.
  apply monotone_try_except; [| intros; apply monotone_log_error].
  apply monotone_bind; [apply monotone_py_items | intros items].
  apply monotone_bind; [apply monotone_py_get | intros action].
  apply monotone_bind; [apply monotone_py_get | intros body].
  apply monotone_bind; [apply monotone_py_concat | intros content].
  apply monotone_write_file.
Qed.

End Monotone.

(** ** Reading the input document *)

Section Reading.

Variable rt : Runtime.
Variable workspace_path : string.

Local Abbreviation self := (new_poller workspace_path).

Lemma input_file_child :
  input_file self = child (shared_dir self) "claude-to-jules-message.md".
Proof. reflexivity. Qed.

Lemma output_file_child :
  output_file self = child (shared_dir self) "jules-to-cc.md".
Proof. reflexivity. Qed.

Lemma archive_path_child now :
  archive_path_at self now = child (shared_dir self) (archive_name now).
Proof.
  unfold archive_path_at. fold (archive_name now).
  pose proof (no_slash_archive_name now) as Hns.
  unfold archive_name in *. simpl in *.
  apply path_div_name; [exact Hns | discriminate].
Qed.

Lemma dict_set_nonempty k v kvs : dict_set k v kvs <> [].
Proof.
  destruct kvs as [| [k' v'] rest]; simpl; [discriminate |].
  destruct (String.eqb k k'); discriminate.
Qed.

Lemma log_error_ok msg w :
  exists w', log_error rt msg w = (Ok tt, w')
             /\ fs w' = fs w /\ cwd w' = cwd w.
Proof. eexists. split; [reflexivity |]. split; reflexivity. Qed.

(** [read_message] never raises and never changes the file system; a
    message it returns is a non-empty mapping read from the input
    file. *)
Lemma read_message_inv w r w1 :
  read_message rt self w = (r, w1) ->
  fs w1 = fs w /\ cwd w1 = cwd w
  /\ match r with
     | Raise _ => False
     | Ok None => True
     | Ok (Some m) =>
         exists d content,
           m = PDict d /\ d <> []
           /\ sys_read (fs w) (cwd w) (input_file self) = inr content
     end.
Proof.
  unfold read_message, bind at 1, path_exists.
  destruct (sys_stat (fs w) (cwd w) (input_file self)) as [e | n] eqn:Hst;
    cbn [negb]; cbn beta iota.
  { intros [= <- <-]. auto. }
  unfold try_except, bind at 1, read_text.
  destruct (sys_read (fs w) (cwd w) (input_file self)) as [e | content]
    eqn:Hrd.
  { intros [= <- <-]. auto. }
  assert (Hplain : exists d w',
             plain_message rt content w = (Ok (Some (PDict d)), w')
             /\ d <> [] /\ fs w' = fs w /\ cwd w' = cwd w).
  { eexists _, _. split; [reflexivity |]. repeat split. discriminate. }
  destruct Hplain as (d0 & w0 & Hp & Hd0 & Hf0 & Hc0).
  destruct (startswith content "---").
  2:{ rewrite Hp. intros [= <- <-]. eauto 10. }
  destruct (Nat.leb 3 (length (py_split "---" content 2))).
  2:{ rewrite Hp. intros [= <- <-]. eauto 10. }
  clear Hp.
  unfold bind, yaml_safe_load.
  destruct (safe_load rt _) as [v | e].
  2:{ intros [= <- <-]. auto. }
  destruct v; simpl; intros [= <- <-]; auto.
  repeat split. eexists _, _. repeat split. apply dict_set_nonempty.
Qed.

End Reading.

(** ** The handlers, [process_message] and [write_response] *)

Section Handlers.

Variable rt : Runtime.
Variable self : HandoffPoller.

Lemma handle_add_file_guard p w :
  truthy (dict_get_default "path" p PNone) = false
  \/ is_null (dict_get "contents" p) ->
  handle_add_file rt self (PDict p) w = (Ok missing_path_or_contents, w).
Proof.
  intros H. unfold handle_add_file, py_get, bind, ret. simpl.
  destruct H as [H | [H | H]].
  - rewrite H. reflexivity.
  - unfold dict_get_default at 2. rewrite H.
    rewrite orb_true_r. reflexivity.
  - unfold dict_get_default at 2. rewrite H.
    rewrite orb_true_r. reflexivity.
Qed.

(** [process_message] on a mapping: the handler's result, or the
    payload that stands for its exception, inside a fixed envelope. *)
Lemma process_message_unfold d w :
  process_message rt self (PDict d) w =
  let action := dict_get_default "action" d (PStr "unknown") in
  let payload := dict_get_default "payload" d (PDict []) in
  let now := utc_clock rt (ticks w) in
  match dispatch rt self action payload (tick w) with
  | (Ok p, w') => (Ok (response_of rt d now p), w')
  | (Raise e, w') =>
      (Ok (response_of rt d now (error_payload rt action e)), w')
  end.
Proof.
  unfold process_message, py_get, bind, ret, try_except, now_utc. simpl.
  destruct (dispatch rt self _ _ (tick w)) as [[p | e] w']; reflexivity.
Qed.

Lemma document_of_response d now p :
  document_of rt (response_fields rt d now p)
  = Ok (response_document rt d now p).
Proof. reflexivity. Qed.

(** [write_response] on a mapping: the document is built, then
    written; any failure is logged. *)
Lemma write_response_unfold resp w :
  write_response rt self (PDict resp) w =
  match document_of rt resp with
  | Ok text =>
      match sys_open_w (fs w) (cwd w) (output_file self) with
      | inr (loc, _) => (Ok tt, set_fs w (<[loc := File text]> (fs w)))
      | inl e =>
          log_error rt
            ("Failed to write response: "
             +:+ exn_str rt (OSError e (path_str (output_file self)))) w
      end
  | Raise e =>
      log_error rt ("Failed to write response: " +:+ exn_str rt e) w
  end.
Proof.
  unfold write_response, document_of, try_except, bind, py_items, py_get,
    ret.
  destruct (dict_get_default "body" resp _) as [| b | n | body | xs | kvs];
    try reflexivity.
  cbn [py_concat ret]. unfold write_file, bind, open_w.
  destruct (sys_open_w (fs w) (cwd w) (output_file self))
    as [e | [loc f]] eqn:Hopen; [reflexivity |].
  unfold sys_open_w in Hopen.
  destruct (resolve _ _ _) as [e | loc']; [discriminate |].
  assert (f = <[loc := File ""]> (fs w)) as ->.
  { destruct (node_at (fs w) loc') as [[|] |]; congruence. }
  simpl. rewrite lookup_insert_eq, insert_insert_eq. reflexivity.
Qed.

Lemma write_response_ok response w :
  exists w', write_response rt self response w = (Ok tt, w').
Proof.
  unfold write_response, try_except.
  match goal with
  | |- context [bind ?m ?k w] => destruct (bind m k w) as [[[] | e] w']
  end; eexists; reflexivity.
Qed.

End Handlers.

(** ** One polling cycle *)

Section Cycle.

Variable rt : Runtime.
Variable workspace_path : string.

Local Abbreviation self := (new_poller workspace_path).

Lemma log_info_announced d w :
  log_info rt
    ("Processing message: "
     +:+ py_str rt (dict_get_default "action" d (PStr "unknown"))) w
  = (Ok tt, announced rt d w).
Proof. reflexivity. Qed.

Lemma announced_fs d w :
  fs (announced rt d w) = fs w /\ cwd (announced rt d w) = cwd w.
Proof. split; reflexivity. Qed.

(** The archive step of [poll_once], once the message has been read,
    handled and answered. *)
Lemma poll_once_unfold w d w1 r w2 w3 :
  read_message rt self w = (Ok (Some (PDict d)), w1) ->
  d <> [] ->
  process_message rt self (PDict d) (announced rt d w1) = (Ok r, w2) ->
  write_response rt self r w2 = (Ok tt, w3) ->
  poll_once rt self w =
  let archive := archive_path_at self (local_clock rt (ticks w3)) in
  let finish (w : world) : result bool * world :=
    (Ok true,
     snd (log_info rt
            ("Response written, message archived to "
             +:+ path_name archive) w)) in
  match sys_stat (fs w3) (cwd w3) (input_file self) with
  | inl _ => finish (tick w3)
  | inr _ =>
      match sys_rename (fs w3) (cwd w3) (input_file self) archive with
      | inl e => (Raise (OSError e (path_str (input_file self))), tick w3)
      | inr f => finish (set_fs (tick w3) f)
      end
  end.
Proof.
  intros Hread Hd Hproc Hwrite.
  unfold poll_once. unfold bind at 1. rewrite Hread.
  destruct d as [| kv d']; [contradiction |].
  cbn [truthy negb]. unfold bind at 1. unfold py_get at 1.
  cbn [ret]. unfold bind at 1. rewrite log_info_announced.
  unfold bind at 1. rewrite Hproc.
  unfold bind at 1. rewrite Hwrite.
  unfold bind at 1. unfold now_local at 1. cbn beta iota.
  unfold bind at 1. unfold path_exists at 1. cbn [fs cwd tick].
  destruct (sys_stat (fs w3) (cwd w3) (input_file self)) as [e | n].
  - reflexivity.
  - unfold bind at 1. unfold path_rename. cbn [fs cwd tick].
    destruct (sys_rename _ _ _ _) as [e | f]; reflexivity.
Qed.

Lemma archive_name_ordinary now :
  archive_name now <> ".."
  /\ archive_name now <> "claude-to-jules-message.md"
  /\ archive_name now <> "jules-to-cc.md".
Proof. unfold archive_name. simpl. repeat split; discriminate. Qed.

(** What a cycle does once [read_message] has returned a message.
    [L] is the location of the shared directory; the input file is
    still a regular file when the archive step is reached. *)
Lemma cycle_spec w d w1 :
  read_message rt self w = (Ok (Some (PDict d)), w1) ->
  exists r w2 w3 L data,
    process_message rt self (PDict d) (announced rt d w1) = (Ok r, w2)
    /\ write_response rt self r w2 = (Ok tt, w3)
    /\ fs (announced rt d w1) = fs w
    /\ world_extends w w2 /\ world_extends w2 w3
    /\ resolve (fs w) (cwd w) (shared_dir self) = inr L
    /\ node_at (fs w) L = Some Dir
    /\ node_at (fs w3) (L ++ ["claude-to-jules-message.md"])
       = Some (File data)
    /\ let dloc := L ++ [archive_name (local_clock rt (ticks w3))] in
       match node_at (fs w3) dloc with
       | Some Dir =>
           exists w',
             poll_once rt self w
             = (Raise (OSError EISDIR (path_str (input_file self))), w')
       | _ =>
           exists w',
             poll_once rt self w = (Ok true, w') /\ cwd w' = cwd w
             /\ fs w'
                = <[dloc := File data]>
                    (delete (L ++ ["claude-to-jules-message.md"]) (fs w3))
       end.
Proof.
  intros Hread.
  destruct (read_message_inv _ _ _ _ _ Hread)
    as (Hf1 & Hc1 & d0 & content & [= <-] & Hne & Hrd).
  destruct (process_message rt self (PDict d) (announced rt d w1))
    as [[r | e] w2] eqn:Hproc.
  2:{ rewrite process_message_unfold in Hproc. cbv zeta in Hproc.
      destruct (dispatch _ _ _ _ _) as [[? | ?] ?]; discriminate. }
  destruct (write_response_ok rt self r w2) as [w3 Hwrite].
  assert (E12 : world_extends w w2).
  { pose proof (monotone_process_message _ _ _ _ _ _ Hproc) as [Hc Hf].
    destruct (announced_fs d w1) as [Hfa Hca].
    split; [congruence |]. rewrite Hfa, Hf1 in Hf. exact Hf. }
  pose proof (monotone_write_response _ _ _ _ _ _ Hwrite) as E23.
  pose proof (world_extends_trans _ _ _ E12 E23) as [Hc3 Hf3].
  apply sys_read_inv in Hrd as (s & Hs & Hns).
  rewrite input_file_child in Hs.
  apply resolve_child_inv in Hs as (L & HL & HLd & ->); [| discriminate].
  destruct (proj2 (Hf3 _) _ Hns) as [data Hdata].
  exists r, w2, w3, L, data.
  split; [reflexivity |]. split; [exact Hwrite |].
  split; [destruct (announced_fs d w1); congruence |].
  do 5 (split; [assumption |]).
  pose proof (resolve_extends _ _ _ _ _ Hf3 HL) as HL3.
  pose proof (proj1 (Hf3 _) HLd) as HLd3.
  rewrite <- Hc3 in HL3.
  destruct (archive_name_ordinary (local_clock rt (ticks w3)))
    as (Hdd & _ & _).
  assert (Hin3 : resolve (fs w3) (cwd w3) (input_file self)
                 = inr (L ++ ["claude-to-jules-message.md"])).
  { rewrite input_file_child, resolve_child by discriminate.
    rewrite HL3, HLd3. reflexivity. }
  assert (Har3 : resolve (fs w3) (cwd w3)
                   (archive_path_at self (local_clock rt (ticks w3)))
                 = inr (L ++ [archive_name (local_clock rt (ticks w3))])).
  { rewrite archive_path_child, resolve_child by assumption.
    rewrite HL3, HLd3. reflexivity. }
  rewrite (poll_once_unfold _ _ _ _ _ _ Hread Hne Hproc Hwrite).
  cbv zeta. rewrite (sys_stat_at _ _ _ _ Hin3), Hdata.
  rewrite (sys_rename_file _ _ _ _ _ _ _ Hin3 Har3 Hdata).
  destruct (node_at (fs w3)
              (L ++ [archive_name (local_clock rt (ticks w3))]))
    as [[c |] |]; eexists; repeat split; reflexivity || assumption.
Qed.

Lemma not_names_dir w p l :
  resolve (fs w) (cwd w) p = inr l -> ~ names_dir w p ->
  node_at (fs w) l <> Some Dir.
Proof.
  intros Hr Hn Hd. apply Hn. unfold names_dir.
  rewrite (sys_stat_at _ _ _ _ Hr), Hd. reflexivity.
Qed.

(** A cycle whose response can be written and whose archive name is
    free of a directory: the response is in the output file, the
    input is gone and the archive holds what the input held. *)
Lemma cycle_completes w d w1 resp w2 text :
  read_message rt self w = (Ok (Some (PDict d)), w1) ->
  process_message rt self (PDict d) (announced rt d w1)
  = (Ok (PDict resp), w2) ->
  document_of rt resp = Ok text ->
  ~ names_dir w2 (output_file self) ->
  ~ names_dir w2 (archive_path_at self (local_clock rt (ticks w2))) ->
  exists w' data,
    poll_once rt self w = (Ok true, w')
    /\ sys_read (fs w2) (cwd w2) (input_file self) = inr data
    /\ sys_read (fs w') (cwd w') (output_file self) = inr text
    /\ sys_stat (fs w') (cwd w') (input_file self) = inl ENOENT
    /\ sys_read (fs w') (cwd w')
         (archive_path_at self (local_clock rt (ticks w2))) = inr data.
Proof.
  intros Hread Hproc Hdoc Hout Harch.
  destruct (cycle_spec _ _ _ Hread)
    as (r & w2' & w3 & L & data & Hproc' & Hwrite & Hfa & E12 & E23
        & HL & HLd & Hdata & Hfin).
  rewrite Hproc in Hproc'. injection Hproc' as <- <-.
  destruct E12 as [Hc2 Hf2].
  pose proof (resolve_extends _ _ _ _ _ Hf2 HL) as HL2.
  rewrite <- Hc2 in HL2.
  pose proof (proj1 (Hf2 _) HLd) as HLd2.
  set (now := local_clock rt (ticks w2)) in *.
  destruct (archive_name_ordinary now) as (Hdd & Hai & Hao).
  set (i := "claude-to-jules-message.md") in *.
  set (o := "jules-to-cc.md") in *.
  assert (Ho2 : resolve (fs w2) (cwd w2) (output_file self)
                = inr (L ++ [o])).
  { rewrite output_file_child, resolve_child, HL2, HLd2 by discriminate.
    reflexivity. }
  assert (Hi2 : resolve (fs w2) (cwd w2) (input_file self)
                = inr (L ++ [i])).
  { rewrite input_file_child, resolve_child, HL2, HLd2 by discriminate.
    reflexivity. }
  assert (Ha2 : resolve (fs w2) (cwd w2) (archive_path_at self now)
                = inr (L ++ [archive_name now])).
  { rewrite archive_path_child, resolve_child, HL2, HLd2 by assumption.
    reflexivity. }
  pose proof (not_names_dir _ _ _ Ho2 Hout) as Hno.
  pose proof (not_names_dir _ _ _ Ha2 Harch) as Hna.
  assert (Hw3 : w3 = set_fs w2 (<[L ++ [o] := File text]> (fs w2))).
  { rewrite write_response_unfold, Hdoc in Hwrite.
    unfold sys_open_w in Hwrite. rewrite Ho2 in Hwrite.
    destruct (node_at (fs w2) (L ++ [o])) as [[c |] |];
      [| contradiction |]; congruence. }
  subst w3. cbn [fs cwd ticks set_fs] in *. fold now in Hfin.
  assert (Hone : L ++ [o] <> []) by (destruct L; discriminate).
  assert (Hoi : L ++ [o] <> L ++ [i]).
  { intros E. apply snoc_inj in E. discriminate. }
  assert (Hoa : L ++ [o] <> L ++ [archive_name now]).
  { intros E. apply snoc_inj in E. congruence. }
  set (f3 := <[L ++ [o] := File text]> (fs w2)) in *.
  assert (Hk : fs_extends (fs w2) f3).
  { apply fs_extends_write, Hno. }
  assert (Hna3 : node_at f3 (L ++ [archive_name now]) <> Some Dir).
  { unfold f3. rewrite node_at_insert by assumption.
    destruct (decide (L ++ [o] = L ++ [archive_name now]));
      [contradiction | assumption]. }
  assert (Hfin' : exists w',
             poll_once rt self w = (Ok true, w') /\ cwd w' = cwd w
             /\ fs w' = <[L ++ [archive_name now] := File data]>
                          (delete (L ++ [i]) f3)).
  { destruct (node_at f3 (L ++ [archive_name now])) as [[c |] |];
      [exact Hfin | contradiction | exact Hfin]. }
  destruct Hfin' as (w' & Hpoll & Hc' & Hf').
  pose proof (resolve_extends _ _ _ _ _ Hk HL2) as HL3.
  pose proof (proj1 (Hk _) HLd2) as HLd3.
  assert (Hia : i <> archive_name now) by congruence.
  destruct (archived_state f3 (cwd w2) (shared_dir self) L i
              (archive_name now) data HL3 HLd3 Hdata Hna3 Hia
              ltac:(discriminate) Hdd) as (Hgone & Harchived & Hrest).
  exists w', data. rewrite Hf', Hc', <- Hc2.
  split; [exact Hpoll |]. split; [| split; [| split]].
  - eapply sys_read_at; [exact Hi2 |].
    unfold f3 in Hdata. rewrite node_at_insert in Hdata by assumption.
    destruct (decide (L ++ [o] = L ++ [i])); [contradiction | exact Hdata].
  - destruct (Hrest (output_file self) (L ++ [o])) as [Hr Hn]; auto.
    { eapply resolve_extends; eassumption. }
    eapply sys_read_at; [exact Hr |]. rewrite Hn. unfold f3.
    rewrite node_at_insert by assumption.
    destruct (decide (L ++ [o] = L ++ [o])); [reflexivity | contradiction].
  - rewrite input_file_child. exact Hgone.
  - rewrite archive_path_child. exact Harchived.
Qed.

End Cycle.

(** * The claims *)

(** ** C1: the envelope of the response *)




(** ** C7 and C10: the guard of [handle_add_file] *)

(** C7.  For [add_file] with [contents] absent from the payload (or
    null), the handler returns a payload with [status: error] and
    leaves the whole state, hence the target path, as it was. *)
Theorem add_file_without_contents (rt : Runtime) (self : HandoffPoller)
    (p : list (string * pyval)) (w : world) :
  is_null (dict_get "contents" p) ->
  exists payload,
    handle_add_file rt self (PDict p) w = (Ok (PDict payload), w)
    /\ dict_get "status" payload = Some (PStr "error").
Proof.
  intros H. exists (status_message "error" "Missing path or contents").
  split; [| reflexivity].
  apply handle_add_file_guard. right. exact H.
Qed.

(** A payload that names a path and has no [contents] key. *)
Lemma add_file_without_contents_witness :
  is_null (dict_get "contents" [("path", PStr "notes/a.txt")])
  /\ exists payload,
       handle_add_file Reference.runtime Examples.self
         (PDict [("path", PStr "notes/a.txt")])
         (Examples.inbox Examples.doc_hello)
       = (Ok (PDict payload), Examples.inbox Examples.doc_hello)
       /\ dict_get "status" payload = Some (PStr "error").
Proof.
  assert (H : is_null (dict_get "contents" [("path", PStr "notes/a.txt")]))
    by (left; reflexivity).
  split; [exact H |].
  exact (add_file_without_contents Reference.runtime Examples.self _ _ H).
Defined.

(** C10.  For [add_file] with [path] equal to the empty string -- or
    any other falsy value, or absent --, whatever [contents] is, the
    handler returns a payload with [status: error] and leaves the whole
    state as it was: no file is written. *)
Theorem add_file_with_falsy_path (rt : Runtime) (self : HandoffPoller)
    (p : list (string * pyval)) (w : world) :
  dict_get "path" p = Some (PStr "")
  \/ truthy (dict_get_default "path" p PNone) = false ->
  exists payload,
    handle_add_file rt self (PDict p) w = (Ok (PDict payload), w)
    /\ dict_get "status" payload = Some (PStr "error").
Proof.
  intros H. exists (status_message "error" "Missing path or contents").
  split; [| reflexivity].
  apply handle_add_file_guard. left.
  destruct H as [H | H]; [| exact H].
  unfold dict_get_default. rewrite H. reflexivity.
Qed.

(** An empty path with contents present. *)
Lemma add_file_with_falsy_path_witness :
  (dict_get "path" [("path", PStr ""); ("contents", PStr "data")]
   = Some (PStr "")
   \/ truthy (dict_get_default "path"
                [("path", PStr ""); ("contents", PStr "data")] PNone)
      = false)
  /\ exists payload,
       handle_add_file Reference.runtime Examples.self
         (PDict [("path", PStr ""); ("contents", PStr "data")])
         (Examples.inbox Examples.doc_hello)
       = (Ok (PDict payload), Examples.inbox Examples.doc_hello)
       /\ dict_get "status" payload = Some (PStr "error").
Proof.
  assert (H : dict_get "path" [("path", PStr ""); ("contents", PStr "data")]
              = Some (PStr "")
              \/ truthy (dict_get_default "path"
                           [("path", PStr ""); ("contents", PStr "data")]
                           PNone) = false)
    by (left; reflexivity).
  split; [exact H |].
  exact (add_file_with_falsy_path Reference.runtime Examples.self _ _ H).
Defined.

(** ** C8: a structured section that is not a mapping *)

Section FrontMatter.

Variable rt : Runtime.
Variable workspace_path : string.

Local Abbreviation self := (new_poller workspace_path).

Lemma sys_read_stat f dir p data :
  sys_read f dir p = inr data -> sys_stat f dir p = inr (File data).
Proof.
  unfold sys_read. destruct (sys_stat f dir p) as [e | [c |]];
    congruence.
Qed.

(** [read_message] on a document with front matter. *)
Lemma read_message_front_matter w content a b c :
  sys_read (fs w) (cwd w) (input_file self) = inr content ->
  startswith content "---" = true ->
  py_split "---" content 2 = [a; b; c] ->
  read_message rt self w =
  match safe_load rt (strip b) with
  | Ok (PDict kvs) =>
      (Ok (Some (PDict (dict_set "body" (PStr (strip c)) kvs))), w)
  | Ok v =>
      (Ok None,
       snd (log_error rt
              ("Failed to read message: "
               +:+ exn_str rt
                     (TypeError ("'" +:+ type_name v
                        +:+ "' object does not support item assignment")))
              w))
  | Raise e =>
      (Ok None,
       snd (log_error rt ("Failed to read message: " +:+ exn_str rt e) w))
  end.
Proof.
  intros Hrd Hstart Hsplit.
  unfold read_message, bind at 1, path_exists.
  rewrite (sys_read_stat _ _ _ _ Hrd). cbn [negb]. cbn beta iota.
  unfold try_except, bind at 1, read_text. rewrite Hrd, Hstart, Hsplit.
  cbn [length Nat.leb nth]. unfold bind, yaml_safe_load.
  destruct (safe_load rt (strip b)) as [v | e]; [| reflexivity].
  destruct v; reflexivity.
Qed.

End FrontMatter.

(** C8.  If the input document begins with the delimiter and has a
    structured section (a second delimiter follows) that fails to parse
    as a key-value mapping -- the YAML library raises, or returns
    something that is not a mapping --, [poll_once] returns [false] and
    leaves the file system as it was: no response is written and the
    input file stays in place. *)
Theorem malformed_front_matter_is_skipped (rt : Runtime)
    (workspace_path : string) (w : world) (content a b c : string) :
  sys_read (fs w) (cwd w) (input_file (new_poller workspace_path))
  = inr content ->
  startswith content "---" = true ->
  py_split "---" content 2 = [a; b; c] ->
  (forall kvs, safe_load rt (strip b) <> Ok (PDict kvs)) ->
  exists w',
    poll_once rt (new_poller workspace_path) w = (Ok false, w')
    /\ fs w' = fs w /\ cwd w' = cwd w.
Proof.
  intros Hrd Hstart Hsplit Hbad.
  pose proof (read_message_front_matter rt workspace_path w content a b c
                Hrd Hstart Hsplit) as Hread.
  unfold poll_once, bind at 1. rewrite Hread.
  destruct (safe_load rt (strip b)) as [v | e].
  - destruct v; try (eexists; repeat split; reflexivity).
    exfalso. eapply Hbad. reflexivity.
  - eexists; repeat split; reflexivity.
Qed.

(** The structured section [just text] loads as a string. *)
Lemma malformed_front_matter_is_skipped_witness :
  sys_read (fs (Examples.inbox Examples.doc_scalar)) []
    (input_file Examples.self) = inr Examples.doc_scalar
  /\ startswith Examples.doc_scalar "---" = true
  /\ py_split "---" Examples.doc_scalar 2
     = ["";
        LF +:+ "just text" +:+ LF;
        LF +:+ "body"]
  /\ (forall kvs,
        safe_load Reference.runtime (strip (LF +:+ "just text" +:+ LF))
        <> Ok (PDict kvs))
  /\ exists w',
       poll_once Reference.runtime Examples.self
         (Examples.inbox Examples.doc_scalar) = (Ok false, w')
       /\ fs w' = fs (Examples.inbox Examples.doc_scalar)
       /\ cwd w' = cwd (Examples.inbox Examples.doc_scalar).
Proof.
  assert (H1 : sys_read (fs (Examples.inbox Examples.doc_scalar))
                 (cwd (Examples.inbox Examples.doc_scalar))
                 (input_file (new_poller "/ws")) = inr Examples.doc_scalar)
    by (vm_compute; reflexivity).
  assert (H2 : startswith Examples.doc_scalar "---" = true)
    by (vm_compute; reflexivity).
  assert (H3 : py_split "---" Examples.doc_scalar 2
               = [""; LF +:+ "just text" +:+ LF; LF +:+ "body"])
    by (vm_compute; reflexivity).
  assert (H4 : forall kvs,
             safe_load Reference.runtime (strip (LF +:+ "just text" +:+ LF))
             <> Ok (PDict kvs))
    by (intros kvs; vm_compute; discriminate).
  repeat (split; [assumption |]).
  exact (malformed_front_matter_is_skipped Reference.runtime "/ws" _ _ _ _ _
           H1 H2 H3 H4).
Defined.

(** ** C9: an action without a handler *)

Section UnknownAction.

Variable rt : Runtime.
Variable workspace_path : string.

Local Abbreviation self := (new_poller workspace_path).



End UnknownAction.




(** ** C3: every parsed message is answered *)




(** ** C2: the scenario of the specification *)

(** C2 (as amended).  For an input document whose raw text is exactly
    [---], [action: message], [from: cc], [for: jules], [---], [Hello]
    (one per line), [poll_once] writes an output document whose
    structured section is the dump of a response with
    [action: message_response], [from: jules], [for: cc] and whose
    payload message text is "Message acknowledged: 13 characters": the
    document has no [payload.content], so the length counted is that
    of the placeholder "Empty message", not that of the body "Hello".
    (The YAML library is assumed to load the three lines as the
    mapping they spell; the output and archive paths are assumed not
    to be directories.) *)
Theorem hello_scenario (rt : Runtime) (workspace_path : string) (w : world) :
  let self := new_poller workspace_path in
  let response :=
    PDict [("id", PStr (isoformat (utc_clock rt (S (ticks w)))));
           ("from", PStr "jules");
           ("for", PStr "cc");
           ("action", PStr "message_response");
           ("payload",
            PDict [("status", PStr "received");
                   ("message", PStr "Message acknowledged: 13 characters");
                   ("timestamp",
                    PStr (isoformat (utc_clock rt (S (S (ticks w))))))])] in
  sys_read (fs w) (cwd w) (input_file self) = inr Examples.doc_hello ->
  safe_load rt ("action: message" +:+ LF +:+ "from: cc" +:+ LF
                +:+ "for: jules")
  = Ok (PDict [("action", PStr "message"); ("from", PStr "cc");
               ("for", PStr "jules")]) ->
  ~ names_dir w (output_file self) ->
  ~ names_dir w
      (archive_path_at self (local_clock rt (S (S (S (ticks w)))))) ->
  exists w',
    poll_once rt self w = (Ok true, w')
    /\ sys_read (fs w') (cwd w') (output_file self)
       = inr (((("---" +:+ LF) +:+ dump rt response) +:+ "---" +:+ LF +:+ LF)
              +:+ "Response to message_response").
Proof.
  intros self response Hrd Hload Hout Harch. subst self.
  assert (Hread : read_message rt (new_poller workspace_path) w
                  = (Ok (Some (PDict Examples.parsed_hello)), w)).
  { rewrite (read_message_front_matter rt workspace_path w
               Examples.doc_hello ""
               (LF +:+ "action: message" +:+ LF +:+ "from: cc" +:+ LF
                +:+ "for: jules" +:+ LF)
               (LF +:+ "Hello") Hrd);
      [| vm_compute; reflexivity | vm_compute; reflexivity].
    change (strip (LF +:+ "action: message" +:+ LF +:+ "from: cc" +:+ LF
                   +:+ "for: jules" +:+ LF))
      with ("action: message" +:+ LF +:+ "from: cc" +:+ LF +:+ "for: jules").
    rewrite Hload. reflexivity. }
  set (payload :=
         PDict [("status", PStr "received");
                ("message", PStr "Message acknowledged: 13 characters");
                ("timestamp",
                 PStr (isoformat (utc_clock rt (S (S (ticks w))))))]).
  assert (Hproc : process_message rt (new_poller workspace_path)
                    (PDict Examples.parsed_hello)
                    (announced rt Examples.parsed_hello w)
                  = (Ok (response_of rt Examples.parsed_hello
                           (utc_clock rt (S (ticks w))) payload),
                     tick (tick (announced rt Examples.parsed_hello w))))
    by reflexivity.
  destruct (cycle_completes rt workspace_path w _ w _ _ _ Hread Hproc
              (document_of_response rt _ _ payload))
    as (w' & data & Hpoll & _ & Hwritten & _).
  - exact Hout.
  - exact Harch.
  - exists w'. split; [exact Hpoll |]. exact Hwritten.
Qed.

(** The scenario on the reference runtime. *)
Lemma hello_scenario_witness :
  let w := Examples.inbox Examples.doc_hello in
  (sys_read (fs w) (cwd w) (input_file Examples.self)
   = inr Examples.doc_hello
   /\ safe_load Reference.runtime
        ("action: message" +:+ LF +:+ "from: cc" +:+ LF +:+ "for: jules")
      = Ok (PDict [("action", PStr "message"); ("from", PStr "cc");
                   ("for", PStr "jules")])
   /\ ~ names_dir w (output_file Examples.self)
   /\ ~ names_dir w
        (archive_path_at Examples.self (local_clock Reference.runtime 3)))
  /\ exists w',
       poll_once Reference.runtime Examples.self w = (Ok true, w')
       /\ sys_read (fs w') (cwd w') (output_file Examples.self)
          = inr Examples.hello_reply.
Proof.
  intros w.
  assert (H1 : sys_read (fs w) (cwd w) (input_file (new_poller "/ws"))
               = inr Examples.doc_hello) by (vm_compute; reflexivity).
  assert (H2 : safe_load Reference.runtime
                 ("action: message" +:+ LF +:+ "from: cc" +:+ LF
                  +:+ "for: jules")
               = Ok (PDict [("action", PStr "message"); ("from", PStr "cc");
                            ("for", PStr "jules")]))
    by (vm_compute; reflexivity).
  assert (H3 : ~ names_dir w (output_file (new_poller "/ws")))
    by (unfold names_dir; vm_compute; discriminate).
  assert (H4 : ~ names_dir w
                 (archive_path_at (new_poller "/ws")
                    (local_clock Reference.runtime (S (S (S (ticks w)))))))
    by (unfold names_dir; vm_compute; discriminate).
  split; [repeat split; assumption |].
  destruct (hello_scenario Reference.runtime "/ws" w H1 H2 H3 H4)
    as (w' & Hpoll & Hwritten).
  exists w'. split; [exact Hpoll |].
  unfold Examples.self. rewrite Hwritten. vm_compute. reflexivity.
Defined.

(** C2 (counterexample).  On the document of the scenario the cycle
    writes a response whose payload message is
    "Message acknowledged: 13 characters"; the text
    "Message acknowledged: 5 characters" does not occur in the output
    document. *)
Lemma hello_is_not_acknowledged_with_5_characters :
  exists w' r w2 payload,
    Examples.run_poll (Examples.inbox Examples.doc_hello) = (Ok true, w')
    /\ sys_read (fs w') (cwd w') (output_file Examples.self)
       = inr Examples.hello_reply
    /\ Reference.contains "Message acknowledged: 5 characters"
         Examples.hello_reply = false
    /\ read_message Reference.runtime Examples.self
         (Examples.inbox Examples.doc_hello)
       = (Ok (Some (PDict Examples.parsed_hello)),
          Examples.inbox Examples.doc_hello)
    /\ process_message Reference.runtime Examples.self
         (PDict Examples.parsed_hello)
         (announced Reference.runtime Examples.parsed_hello
            (Examples.inbox Examples.doc_hello))
       = (Ok (PDict r), w2)
    /\ dict_get "payload" r = Some (PDict payload)
    /\ dict_get "message" payload
       = Some (PStr "Message acknowledged: 13 characters")
    /\ dict_get "message" payload
       <> Some (PStr "Message acknowledged: 5 characters").
Proof.
  eexists _, _, _, _.
  split; [vm_compute; reflexivity |].
  split; [vm_compute; reflexivity |].
  split; [vm_compute; reflexivity |].
  split; [vm_compute; reflexivity |].
  split; [vm_compute; reflexivity |].
  split; [vm_compute; reflexivity |].
  split; [vm_compute; reflexivity | vm_compute; discriminate].
Qed.

(** ** C5: the archive *)

Section Archive.

Variable rt : Runtime.
Variable workspace_path : string.

Local Abbreviation self := (new_poller workspace_path).



End Archive.




(** ** C6: [add_file] *)

Section AddFile.

Variable rt : Runtime.
Variable workspace_path : string.

Local Abbreviation self := (new_poller workspace_path).






End AddFile.

Section AddFileCycle.

Variable rt : Runtime.
Variable workspace_path : string.

Local Abbreviation self := (new_poller workspace_path).


End AddFileCycle.




(** ** C4: writing a response and reading it back *)

Section RoundTrip.

Variable rt : Runtime.
Variable workspace_path : string.

Local Abbreviation self := (new_poller workspace_path).

Lemma string_app_assoc (a b c : string) :
  (a +:+ b) +:+ c = a +:+ (b +:+ c).
Proof.
  induction a as [| x a IH]; [reflexivity |].
  change (String x ((a +:+ b) +:+ c) = String x (a +:+ (b +:+ c))).
  f_equal. exact IH.
Qed.

Lemma prefix_cons a s1 b s2 :
  String.prefix (String a s1) (String b s2)
  = if ascii_dec a b then String.prefix s1 s2 else false.
Proof. reflexivity. Qed.

Lemma last_is_dash_cons c s :
  last_is_dash (String c s) = false -> last_is_dash s = false.
Proof. destruct s; [reflexivity | simpl; auto]. Qed.

Lemma last_is_dash_newline s : last_is_dash (s +:+ LF) = false.
Proof.
  induction s as [| c s IH]; [reflexivity |].
  simpl. destruct (s +:+ LF) eqn:E; [| exact IH].
  destruct s; discriminate.
Qed.

(** Three characters that are not the delimiter stay so when text is
    appended, unless they are cut short by a hyphen. *)
Lemma prefix_dashes_extend a r :
  String.prefix "---" a = false -> last_is_dash a = false ->
  a <> "" ->
  String.prefix "---" (a +:+ r) = false.
Proof.
  intros Hp Hl Hne.
  destruct a as [| c1 a]; [contradiction |].
  change (String c1 a +:+ r) with (String c1 (a +:+ r)).
  rewrite prefix_cons in Hp |- *.
  destruct (ascii_dec "-" c1) as [<- |]; [| reflexivity].
  destruct a as [| c2 a]; [discriminate |].
  change (String c2 a +:+ r) with (String c2 (a +:+ r)).
  rewrite prefix_cons in Hp |- *.
  destruct (ascii_dec "-" c2) as [<- |]; [| reflexivity].
  destruct a as [| c3 a]; [discriminate |].
  change (String c3 a +:+ r) with (String c3 (a +:+ r)).
  rewrite prefix_cons in Hp |- *.
  destruct (ascii_dec "-" c3) as [<- |]; [| reflexivity].
  destruct a; discriminate Hp.
Qed.

Lemma find_sub_cons sep c s :
  find_sub sep (String c s)
  = if String.prefix sep (String c s)
    then Some (EmptyString, string_drop (String.length sep) (String c s))
    else match find_sub sep s with
         | Some (a, r) => Some (String c a, r)
         | None => None
         end.
Proof. reflexivity. Qed.

(** The first delimiter after a text that has none and does not end
    with a hyphen. *)
Lemma find_sub_first a r :
  find_sub "---" a = None -> last_is_dash a = false ->
  find_sub "---" (a +:+ "---" +:+ r) = Some (a, r).
Proof.
  induction a as [| c a IH]; intros Hnone Hlast.
  - destruct r; reflexivity.
  - rewrite find_sub_cons in Hnone.
    destruct (String.prefix "---" (String c a)) eqn:Hp; [discriminate |].
    assert (Hrest : find_sub "---" a = None).
    { destruct (find_sub "---" a) as [[? ?] |]; [discriminate | reflexivity]. }
    pose proof (prefix_dashes_extend (String c a) ("---" +:+ r) Hp Hlast
                  ltac:(discriminate)) as Hp'.
    change (String c a +:+ "---" +:+ r)
      with (String c (a +:+ "---" +:+ r)) in *.
    rewrite find_sub_cons, Hp', (IH Hrest (last_is_dash_cons _ _ Hlast)).
    reflexivity.
Qed.

(** How [read_message] splits a document that [write_response] built. *)
Lemma split_document yaml body :
  find_sub "---" yaml = None -> (exists y0, yaml = y0 +:+ LF) ->
  let text := ((("---" +:+ LF) +:+ yaml) +:+ "---" +:+ LF +:+ LF) +:+ body in
  startswith text "---" = true
  /\ py_split "---" text 2 = [""; LF +:+ yaml; LF +:+ LF +:+ body].
Proof.
  intros Hnone [y0 Hy]. cbv zeta.
  assert (Htext : ((("---" +:+ LF) +:+ yaml) +:+ "---" +:+ LF +:+ LF) +:+ body
                  = "---" +:+ ((LF +:+ yaml) +:+ "---" +:+ (LF +:+ LF +:+ body))).
  { rewrite !string_app_assoc. reflexivity. }
  rewrite Htext. split; [reflexivity |].
  assert (Hfirst : find_sub "---"
                     ((LF +:+ yaml) +:+ "---" +:+ (LF +:+ LF +:+ body))
                   = Some (LF +:+ yaml, LF +:+ LF +:+ body)).
  { apply find_sub_first.
    - change (LF +:+ yaml) with (String (ascii_of_nat 10) yaml).
      change (find_sub "---" (String (ascii_of_nat 10) yaml))
        with (match find_sub "---" yaml with
              | Some (x, y) => Some (String (ascii_of_nat 10) x, y)
              | None => None
              end).
      rewrite Hnone. reflexivity.
    - rewrite Hy. rewrite <- string_app_assoc. apply last_is_dash_newline. }
  change (py_split "---"
            ("---" +:+ ((LF +:+ yaml) +:+ "---" +:+ (LF +:+ LF +:+ body))) 2)
    with ("" :: match find_sub "---"
                        ((LF +:+ yaml) +:+ "---" +:+ (LF +:+ LF +:+ body)) with
                | None => [(LF +:+ yaml) +:+ "---" +:+ (LF +:+ LF +:+ body)]
                | Some (x, y) => [x; y]
                end).
  rewrite Hfirst. reflexivity.
Qed.

Lemma dict_get_set_other k k' v kvs :
  k <> k' -> dict_get k (dict_set k' v kvs) = dict_get k kvs.
Proof.
  intros Hne. induction kvs as [| [k0 v0] rest IH]; simpl.
  - apply String.eqb_neq in Hne. rewrite Hne. reflexivity.
  - destruct (String.eqb k' k0) eqn:E; simpl.
    + apply String.eqb_eq in E. subst k0.
      apply String.eqb_neq in Hne. rewrite Hne. reflexivity.
    + destruct (String.eqb k k0); [reflexivity | exact IH].
Qed.

(** [write_response] puts the document in the output file when the
    shared directory exists and the output path is not a directory. *)
Lemma write_response_writes resp text w :
  document_of rt resp = Ok text ->
  names_dir w (shared_dir self) -> ~ names_dir w (output_file self) ->
  sys_read (fs (snd (write_response rt self (PDict resp) w))) (cwd w)
    (output_file self) = inr text.
Proof.
  intros Hdoc Hshared Hout. rewrite write_response_unfold, Hdoc.
  unfold names_dir, sys_stat in Hshared.
  destruct (resolve (fs w) (cwd w) (shared_dir self)) as [e | L] eqn:HL;
    [discriminate |].
  assert (HLd : node_at (fs w) L = Some Dir).
  { destruct (node_at (fs w) L) as [[|] |]; congruence. }
  assert (Ho : resolve (fs w) (cwd w) (output_file self)
               = inr (L ++ ["jules-to-cc.md"])).
  { rewrite output_file_child, resolve_child, HL, HLd by discriminate.
    reflexivity. }
  pose proof (not_names_dir _ _ _ Ho Hout) as Hnd.
  assert (Hw : sys_read (<[L ++ ["jules-to-cc.md"] := File text]> (fs w))
                 (cwd w) (output_file self) = inr text).
  { eapply sys_read_at.
    - eapply resolve_extends; [apply fs_extends_write, Hnd | exact Ho].
    - rewrite node_at_insert by (destruct L; discriminate).
      destruct (decide (L ++ ["jules-to-cc.md"] = L ++ ["jules-to-cc.md"]));
        [reflexivity | contradiction]. }
  unfold sys_open_w. rewrite Ho.
  destruct (node_at (fs w) (L ++ ["jules-to-cc.md"])) as [[c |] |];
    [exact Hw | contradiction | exact Hw].
Qed.

End RoundTrip.

(** X19 (the round trip that claim C4 describes).  For every response
    mapping whose body, if present, is a string and whose serialized
    structured section (the
    YAML dump of all fields except [body], ending in a newline) does
    not contain the delimiter [---]: the write path puts the document
    (delimiter line, dump, delimiter line, blank line, body) in the
    output file, and re-parsing that document via the read path yields
    a mapping whose [action], [from], [for] and [id] fields equal those
    of the original -- given that the YAML library loads the dump back
    with these four fields unchanged. *)
Theorem response_round_trip (rt : Runtime) (workspace_path : string)
    (resp kvs : list (string * pyval)) (text : string) (w v : world) :
  let self := new_poller workspace_path in
  let yaml := dump rt (PDict (dict_without "body" resp)) in
  document_of rt resp = Ok text ->
  find_sub "---" yaml = None ->
  (exists y0, yaml = y0 +:+ LF) ->
  safe_load rt (strip (LF +:+ yaml)) = Ok (PDict kvs) ->
  same_envelope kvs resp ->
  names_dir w (shared_dir self) -> ~ names_dir w (output_file self) ->
  sys_read (fs v) (cwd v) (input_file self) = inr text ->
  sys_read (fs (snd (write_response rt self (PDict resp) w))) (cwd w)
    (output_file self) = inr text
  /\ exists m,
       read_message rt self v = (Ok (Some (PDict m)), v)
       /\ same_envelope m resp.
Proof.
  intros self yaml Hdoc Hnone Hnl Hload Hsame Hshared Hout Hin. subst self.
  split; [apply write_response_writes; assumption |].
  unfold document_of in Hdoc.
  destruct (dict_get_default "body" resp _) as [| | | body | |];
    try discriminate.
  injection Hdoc as <-. fold yaml in Hin.
  destruct (split_document yaml body Hnone Hnl) as [Hstart Hsplit].
  cbv zeta in Hstart, Hsplit.
  rewrite (read_message_front_matter rt workspace_path v _ _ _ _
             Hin Hstart Hsplit), Hload.
  eexists. split; [reflexivity |].
  destruct Hsame as (Ha & Hf & Ho & Hi).
  repeat split; rewrite dict_get_set_other by discriminate; assumption.
Qed.

(** The response of the scenario, written and read back. *)
Lemma response_round_trip_witness :
  let resp :=
    response_fields Reference.runtime Examples.parsed_hello
      (utc_clock Reference.runtime 1)
      (PDict [("status", PStr "received");
              ("message", PStr "Message acknowledged: 13 characters");
              ("timestamp", PStr "2026-11-04T12:00:02+00:00")]) in
  let w := Examples.inbox Examples.doc_hello in
  let v := Examples.inbox Examples.hello_reply in
  document_of Reference.runtime resp = Ok Examples.hello_reply
  /\ sys_read (fs (snd (write_response Reference.runtime Examples.self
                          (PDict resp) w))) (cwd w)
       (output_file Examples.self) = inr Examples.hello_reply
  /\ exists m,
       read_message Reference.runtime Examples.self v
       = (Ok (Some (PDict m)), v)
       /\ same_envelope m resp.
Proof.
  intros resp w v.
  assert (H1 : document_of Reference.runtime resp = Ok Examples.hello_reply)
    by (vm_compute; reflexivity).
  assert (H2 : find_sub "---"
                 (dump Reference.runtime (PDict (dict_without "body" resp)))
               = None) by (vm_compute; reflexivity).
  assert (H3 : exists y0,
             dump Reference.runtime (PDict (dict_without "body" resp))
             = y0 +:+ LF).
  { exists (Reference.drop_last
              (dump Reference.runtime (PDict (dict_without "body" resp)))).
    vm_compute. reflexivity. }
  assert (H4 : safe_load Reference.runtime
                 (strip (LF +:+ dump Reference.runtime
                                  (PDict (dict_without "body" resp))))
               = Ok (PDict
                       [("action", PStr "message_response");
                        ("for", PStr "cc"); ("from", PStr "jules");
                        ("id", PStr "2026-11-04T12:00:01+00:00");
                        ("payload",
                         PDict [("message",
                                 PStr "Message acknowledged: 13 characters");
                                ("status", PStr "received");
                                ("timestamp",
                                 PStr "2026-11-04T12:00:02+00:00")])]))
    by (vm_compute; reflexivity).
  assert (H5 : same_envelope
                 [("action", PStr "message_response");
                  ("for", PStr "cc"); ("from", PStr "jules");
                  ("id", PStr "2026-11-04T12:00:01+00:00");
                  ("payload",
                   PDict [("message",
                           PStr "Message acknowledged: 13 characters");
                          ("status", PStr "received");
                          ("timestamp",
                           PStr "2026-11-04T12:00:02+00:00")])] resp)
    by (repeat split; vm_compute; reflexivity).
  assert (H6 : names_dir w (shared_dir (new_poller "/ws")))
    by (unfold names_dir; vm_compute; reflexivity).
  assert (H7 : ~ names_dir w (output_file (new_poller "/ws")))
    by (unfold names_dir; vm_compute; discriminate).
  assert (H8 : sys_read (fs v) (cwd v) (input_file (new_poller "/ws"))
               = inr Examples.hello_reply) by (vm_compute; reflexivity).
  split; [exact H1 |].
  exact (response_round_trip Reference.runtime "/ws" resp _
           Examples.hello_reply w v H1 H2 H3 H4 H5 H6 H7 H8).
Defined.

(** The delimiter inside a dumped field cuts the structured section
    short: the response to the unknown action [a---b] is written with
    [action: a---b_response], and reading that document back yields
    the action [a] and no [from], [for] or [id]. *)
Lemma delimiter_in_action_breaks_round_trip :
  exists w' m,
    read_message Reference.runtime Examples.self
      (Examples.inbox Examples.doc_dashes)
    = (Ok (Some (PDict Examples.parsed_dashes)),
       Examples.inbox Examples.doc_dashes)
    /\ Examples.run_poll (Examples.inbox Examples.doc_dashes) = (Ok true, w')
    /\ sys_read (fs w') (cwd w') (output_file Examples.self)
       = inr Examples.dashes_reply
    /\ read_message Reference.runtime Examples.self
         (Examples.inbox Examples.dashes_reply)
       = (Ok (Some (PDict m)), Examples.inbox Examples.dashes_reply)
    /\ dict_get "action" m = Some (PStr "a")
    /\ dict_get "action" m <> Some (PStr "a---b_response")
    /\ dict_get "from" m = None /\ dict_get "for" m = None
    /\ dict_get "id" m = None.
Proof.
  eexists _, _.
  split; [vm_compute; reflexivity |].
  split; [vm_compute; reflexivity |].
  split; [vm_compute; reflexivity |].
  split; [vm_compute; reflexivity |].
  split; [vm_compute; reflexivity |].
  split; [vm_compute; discriminate |].
  repeat split; vm_compute; reflexivity.
Qed.

(** * Further properties *)

(** ** Reading: no input, plain text, a directory in place of the input *)

Section ReadingCases.

Variable rt : Runtime.
Variable workspace_path : string.

Local Abbreviation self := (new_poller workspace_path).

Lemma read_message_absent w e :
  sys_stat (fs w) (cwd w) (input_file self) = inl e ->
  read_message rt self w = (Ok None, w).
Proof.
  intros H. unfold read_message, bind, path_exists. rewrite H. reflexivity.
Qed.

Lemma poll_once_absent w e :
  sys_stat (fs w) (cwd w) (input_file self) = inl e ->
  poll_once rt self w = (Ok false, w).
Proof.
  intros H. unfold poll_once, bind. rewrite (read_message_absent w e H).
  reflexivity.
Qed.


Lemma read_message_directory w :
  names_dir w (input_file self) ->
  read_message rt self w
  = (Ok None,
     snd (log_error rt
            ("Failed to read message: "
             +:+ exn_str rt (OSError EISDIR (path_str (input_file self))))
            w)).
Proof.
  intros Hd. unfold names_dir in Hd.
  unfold read_message, bind at 1, path_exists. rewrite Hd. cbn [negb].
  unfold try_except, bind at 1, read_text, sys_read. rewrite Hd.
  reflexivity.
Qed.


End ReadingCases.

(** X1.  When the input path names nothing, [read_message] returns
    [None] and [poll_once] returns [False]; the state is exactly the
    one before: no file is touched, nothing is printed and no clock is
    read. *)
Theorem poll_once_without_input (rt : Runtime) (workspace_path : string)
    (w : world) (e : os_errno) :
  let self := new_poller workspace_path in
  sys_stat (fs w) (cwd w) (input_file self) = inl e ->
  read_message rt self w = (Ok None, w)
  /\ poll_once rt self w = (Ok false, w).
Proof.
  intros self H. split.
  - exact (read_message_absent rt workspace_path w e H).
  - exact (poll_once_absent rt workspace_path w e H).
Qed.

Lemma poll_once_without_input_witness :
  sys_stat (fs Examples.idle) (cwd Examples.idle) (input_file Examples.self)
  = inl ENOENT
  /\ read_message Reference.runtime Examples.self Examples.idle
     = (Ok None, Examples.idle)
  /\ poll_once Reference.runtime Examples.self Examples.idle
     = (Ok false, Examples.idle).
Proof.
  assert (H : sys_stat (fs Examples.idle) (cwd Examples.idle)
                (input_file (new_poller "/ws")) = inl ENOENT)
    by (vm_compute; reflexivity).
  split; [exact H |].
  exact (poll_once_without_input Reference.runtime "/ws" Examples.idle
           ENOENT H).
Defined.







(** X5.  When the input path names a directory, opening it fails:
    [read_message] reports "Failed to read message: ..." with the text
    of the [IsADirectoryError] on the error stream and returns [None],
    so [poll_once] returns [False]; the file system and the standard
    output are left as they were. *)
Theorem input_directory_is_reported (rt : Runtime) (workspace_path : string)
    (w : world) :
  let self := new_poller workspace_path in
  names_dir w (input_file self) ->
  exists w',
    poll_once rt self w = (Ok false, w')
    /\ fs w' = fs w /\ cwd w' = cwd w /\ stdout w' = stdout w
    /\ stderr w'
       = stderr w
         ++ [error_line (utc_clock rt (ticks w))
               ("Failed to read message: "
                +:+ exn_str rt
                      (OSError EISDIR (path_str (input_file self))))].
Proof.
  intros self Hd. subst self. eexists. split.
  - unfold poll_once, bind.
    rewrite (read_message_directory rt workspace_path w Hd). reflexivity.
  - repeat split; reflexivity.
Qed.

Lemma input_directory_is_reported_witness :
  let w := Examples.input_is_directory in
  names_dir w (input_file Examples.self)
  /\ exists w',
       poll_once Reference.runtime Examples.self w = (Ok false, w')
       /\ fs w' = fs w /\ cwd w' = cwd w /\ stdout w' = stdout w
       /\ stderr w'
          = ["[2026-11-04T12:00:00+00:00] ERROR: Failed to read message: "
             +:+ "[Errno 21] Is a directory: "
             +:+ "'/ws/shared/claude-to-jules-message.md'"].
Proof.
  intros w.
  assert (H : names_dir w (input_file (new_poller "/ws")))
    by (unfold names_dir; vm_compute; reflexivity).
  split; [exact H |].
  destruct (input_directory_is_reported Reference.runtime "/ws" w H)
    as (w' & Hpoll & Hfs & Hcwd & Hout & Herr).
  exists w'. repeat split; assumption.
Defined.

(** ** The handlers on unusual messages *)

Section HandlerCases.

Variable rt : Runtime.
Variable workspace_path : string.

Local Abbreviation self := (new_poller workspace_path).

(** Every handler starts with [payload.get]. *)
Lemma dispatch_non_mapping a v w :
  a = "add_file" \/ a = "run_task" \/ a = "message" ->
  (forall p, v <> PDict p) ->
  dispatch rt self (PStr a) v w
  = (Raise (AttributeError (type_name v) "get"), w).
Proof.
  intros Ha Hv.
  destruct v as [| b | n | s | xs | p]; [| | | | | destruct (Hv p eq_refl)];
    destruct Ha as [-> | [-> | ->]]; reflexivity.
Qed.



End HandlerCases.



(** X7.  When the action is one of [add_file], [run_task] and
    [message] and the payload is present but not a mapping (a string, a
    number, a list, [null]), the handler fails on [payload.get]; the
    response then carries [status: error] with the message
    "Error processing <action>: " followed by the text of that
    [AttributeError], and no file is touched. *)
Theorem non_mapping_payload_is_an_error (rt : Runtime)
    (workspace_path : string) (d : list (string * pyval)) (a : string)
    (v : pyval) (w : world) :
  let self := new_poller workspace_path in
  dict_get "action" d = Some (PStr a) ->
  a = "add_file" \/ a = "run_task" \/ a = "message" ->
  dict_get "payload" d = Some v ->
  (forall p, v <> PDict p) ->
  process_message rt self (PDict d) w
  = (Ok (response_of rt d (utc_clock rt (ticks w))
           (PDict [("status", PStr "error");
                   ("message",
                    PStr ("Error processing " +:+ a +:+ ": "
                          +:+ exn_str rt
                                (AttributeError (type_name v) "get")))])),
     tick w).
Proof.
  intros self Ha Hin Hp Hv. subst self.
  rewrite process_message_unfold. cbv zeta.
  unfold dict_get_default. rewrite Ha, Hp.
  rewrite (dispatch_non_mapping rt workspace_path a v (tick w) Hin Hv).
  reflexivity.
Qed.

Lemma non_mapping_payload_is_an_error_witness :
  let d := [("action", PStr "message"); ("payload", PStr "hello")] in
  (dict_get "action" d = Some (PStr "message")
   /\ ("message" = "add_file" \/ "message" = "run_task"
       \/ "message" = "message")
   /\ dict_get "payload" d = Some (PStr "hello")
   /\ (forall p, PStr "hello" <> PDict p))
  /\ process_message Reference.runtime Examples.self (PDict d) Examples.idle
     = (Ok (PDict [("id", PStr "2026-11-04T12:00:00+00:00");
                   ("from", PStr "jules");
                   ("for", PStr "cc");
                   ("action", PStr "message_response");
                   ("payload",
                    PDict [("status", PStr "error");
                           ("message",
                            PStr ("Error processing message: "
                                  +:+ "'str' object has no attribute "
                                  +:+ "'get'"))])]),
        tick Examples.idle).
Proof.
  intros d.
  assert (H1 : dict_get "action" d = Some (PStr "message")) by reflexivity.
  assert (H2 : "message" = "add_file" \/ "message" = "run_task"
               \/ "message" = "message") by (right; right; reflexivity).
  assert (H3 : dict_get "payload" d = Some (PStr "hello")) by reflexivity.
  assert (H4 : forall p, PStr "hello" <> PDict p) by discriminate.
  split; [repeat split; assumption |].
  exact (non_mapping_payload_is_an_error Reference.runtime "/ws" d "message"
           (PStr "hello") Examples.idle H1 H2 H3 H4).
Defined.





(** ** What a cycle leaves in place *)

Section Keeping.

Lemma kind_kept_refl f loc : kind_kept f f loc.
Proof. split; [auto | eauto]. Qed.

Lemma kind_kept_trans f1 f2 f3 loc :
  kind_kept f1 f2 loc -> kind_kept f2 f3 loc -> kind_kept f1 f3 loc.
Proof.
  intros [Hd1 Hf1] [Hd2 Hf2]. split; [auto |].
  intros c Hc. destruct (Hf1 c Hc) as [c' Hc']. eauto.
Qed.

Lemma dirs_kept_trans f1 f2 f3 :
  dirs_kept f1 f2 -> dirs_kept f2 f3 -> dirs_kept f1 f3.
Proof. intros H1 H2 loc Hl. auto. Qed.

Lemma keeps_all_but_same_fs p w w' :
  fs w' = fs w -> cwd w' = cwd w -> keeps_all_but p w w'.
Proof.
  intros Hf Hc. split; [exact Hc |]. rewrite Hf.
  destruct (resolve _ _ _); [reflexivity |].
  split; [intros loc H; exact H | intros loc _; apply kind_kept_refl].
Qed.

Lemma keeps_all_but_refl p w : keeps_all_but p w w.
Proof. apply keeps_all_but_same_fs; reflexivity. Qed.

Lemma keeps_all_but_trans p w1 w2 w3 :
  keeps_all_but p w1 w2 -> keeps_all_but p w2 w3 -> keeps_all_but p w1 w3.
Proof.
  intros [Hc1 H1] [Hc2 H2]. split; [congruence |].
  rewrite Hc1 in H2.
  destruct (resolve (fs w1) (cwd w1) p) as [e | s] eqn:Hr.
  - rewrite H1, Hr in H2. congruence.
  - destruct H1 as [Hd1 Hk1].
    rewrite (resolve_dirs_kept _ _ _ _ _ Hd1 Hr) in H2.
    destruct H2 as [Hd2 Hk2].
    split; [eapply dirs_kept_trans; eassumption |].
    intros loc Hl. eapply kind_kept_trans; [apply Hk1 | apply Hk2]; exact Hl.
Qed.

End Keeping.

Section CycleCases.

Variable rt : Runtime.
Variable workspace_path : string.

Local Abbreviation self := (new_poller workspace_path).

(** The three ways a cycle can end. *)
Lemma poll_once_cases w :
  (exists w', poll_once rt self w = (Ok false, w')
              /\ fs w' = fs w /\ cwd w' = cwd w)
  \/ exists L data w3 stamp,
       resolve (fs w) (cwd w) (shared_dir self) = inr L
       /\ node_at (fs w) L = Some Dir
       /\ world_extends w w3
       /\ node_at (fs w3) (L ++ ["claude-to-jules-message.md"])
          = Some (File data)
       /\ ((node_at (fs w3) (L ++ [archive_name stamp]) = Some Dir
            /\ exists w',
                 poll_once rt self w
                 = (Raise (OSError EISDIR (path_str (input_file self))), w')
                 /\ fs w' = fs w3 /\ cwd w' = cwd w)
           \/ (node_at (fs w3) (L ++ [archive_name stamp]) <> Some Dir
               /\ exists w',
                    poll_once rt self w = (Ok true, w')
                    /\ cwd w' = cwd w
                    /\ fs w'
                       = <[L ++ [archive_name stamp] := File data]>
                           (delete (L ++ ["claude-to-jules-message.md"])
                              (fs w3)))).
Proof.
  destruct (read_message rt self w) as [rd w1] eqn:Hread.
  destruct (read_message_inv _ _ _ _ _ Hread) as (Hf1 & Hc1 & Hrd).
  destruct rd as [[m |] | e]; [| | contradiction].
  2:{ left. exists w1. unfold poll_once, bind. rewrite Hread. auto. }
  destruct Hrd as (d & content & -> & Hne & Hcontent).
  destruct (cycle_spec _ _ _ _ _ Hread)
    as (r & w2 & w3 & L & data & Hproc & Hwrite & Hfa & E12 & E23
        & HL & HLd & Hdata & _).
  pose proof (world_extends_trans _ _ _ E12 E23) as E13.
  destruct E13 as [Hc3 Hf3].
  right. exists L, data, w3, (local_clock rt (ticks w3)).
  do 4 (split; [first [assumption | split; assumption] |]).
  pose proof (resolve_extends _ _ _ _ _ Hf3 HL) as HL3.
  pose proof (proj1 (Hf3 _) HLd) as HLd3.
  rewrite <- Hc3 in HL3.
  destruct (archive_name_ordinary (local_clock rt (ticks w3)))
    as (Hdd & _ & _).
  assert (Hin3 : resolve (fs w3) (cwd w3) (input_file self)
                 = inr (L ++ ["claude-to-jules-message.md"])).
  { rewrite input_file_child, resolve_child by discriminate.
    rewrite HL3, HLd3. reflexivity. }
  assert (Har3 : resolve (fs w3) (cwd w3)
                   (archive_path_at self (local_clock rt (ticks w3)))
                 = inr (L ++ [archive_name (local_clock rt (ticks w3))])).
  { rewrite archive_path_child, resolve_child by assumption.
    rewrite HL3, HLd3. reflexivity. }
  rewrite (poll_once_unfold _ _ _ _ _ _ _ _ Hread Hne Hproc Hwrite).
  cbv zeta. rewrite (sys_stat_at _ _ _ _ Hin3), Hdata.
  rewrite (sys_rename_file _ _ _ _ _ _ _ Hin3 Har3 Hdata).
  destruct (node_at (fs w3)
              (L ++ [archive_name (local_clock rt (ticks w3))]))
    as [[c |] |] eqn:Hn.
  - right. split; [discriminate |]. eexists. repeat split; assumption.
  - left. split; [reflexivity |]. eexists. repeat split; assumption.
  - right. split; [discriminate |]. eexists. repeat split; assumption.
Qed.


Lemma poll_once_keeps w r w' :
  poll_once rt self w = (r, w') -> keeps_all_but (input_file self) w w'.
Proof.
  intros H.
  destruct (poll_once_cases w)
    as [(v & Hv & Hf & Hc)
       | (L & data & w3 & stamp & HL & HLd & [Hc3 Hf3] & Hdata & Hend)].
  { rewrite Hv in H. injection H as <- <-.
    apply keeps_all_but_same_fs; assumption. }
  assert (Hin : resolve (fs w) (cwd w) (input_file self)
                = inr (L ++ ["claude-to-jules-message.md"])).
  { rewrite input_file_child, resolve_child by discriminate.
    rewrite HL, HLd. reflexivity. }
  destruct Hend as [(Hd & v & Hv & Hf & Hc) | (Hnd & v & Hv & Hc & Hf)];
    rewrite Hv in H; injection H as <- <-;
    (split; [exact Hc |]); rewrite Hin, Hf.
  - split; [apply fs_extends_dirs_kept, Hf3 | intros loc _; exact (Hf3 loc)].
  - split.
    + eapply dirs_kept_trans; [apply fs_extends_dirs_kept, Hf3 |].
      eapply dirs_kept_renamed; [exact Hdata | exact Hnd].
    + intros loc Hloc.
      assert (Hs : L ++ ["claude-to-jules-message.md"] <> [])
        by (destruct L; discriminate).
      assert (Ha : L ++ [archive_name stamp] <> [])
        by (destruct L; discriminate).
      unfold kind_kept.
      rewrite (node_at_renamed _ _ _ _ _ Hs Ha).
      destruct (decide (L ++ [archive_name stamp] = loc)) as [<- | Hna].
      * split.
        -- intros Hdir. destruct (Hnd (proj1 (Hf3 _) Hdir)).
        -- intros c _. eauto.
      * destruct (decide (L ++ ["claude-to-jules-message.md"] = loc));
          [congruence |].
        exact (Hf3 loc).
Qed.

End CycleCases.

(** X10.  Whatever a cycle does and however it ends, it removes
    nothing and changes the kind of nothing but its own input file:
    the working directory is the same, every directory is still a
    directory, and every regular file other than the input file is
    still a regular file; when the input path leads nowhere the file
    system is untouched. *)
Theorem poll_once_keeps_other_files (rt : Runtime) (workspace_path : string)
    (w : world) :
  let self := new_poller workspace_path in
  keeps_all_but (input_file self) w (snd (poll_once rt self w)).
Proof.
  intros self. subst self.
  destruct (poll_once rt (new_poller workspace_path) w) as [r w'] eqn:H.
  exact (poll_once_keeps rt workspace_path w r w' H).
Qed.

(** X11.  [write_response] never raises, whatever value it is given:
    every failure is caught and logged.  It leaves the working
    directory and the standard output alone, and no location other
    than that of the output file changes. *)
Theorem write_response_touches_only_output (rt : Runtime)
    (workspace_path : string) (response : pyval) (w : world) :
  let self := new_poller workspace_path in
  exists w',
    write_response rt self response w = (Ok tt, w')
    /\ cwd w' = cwd w /\ stdout w' = stdout w
    /\ forall loc,
         resolve (fs w) (cwd w) (output_file self) <> inr loc ->
         node_at (fs w') loc = node_at (fs w) loc.
Proof.
  intros self. subst self.
  destruct response as [| b | n | s | xs | resp];
    try (eexists; split; [reflexivity |]; repeat split; reflexivity).
  rewrite write_response_unfold.
  destruct (document_of rt resp) as [text | e];
    [| eexists; split; [reflexivity |]; repeat split; reflexivity].
  unfold sys_open_w.
  destruct (resolve (fs w) (cwd w) (output_file (new_poller workspace_path))) as [e | o] eqn:Ho;
    [eexists; split; [reflexivity |]; repeat split; reflexivity |].
  assert (Hins : forall loc, inr o <> @inr os_errno _ loc ->
            node_at (<[o := File text]> (fs w)) loc = node_at (fs w) loc).
  { intros loc Hl. destruct loc as [| x loc]; [reflexivity |].
    simpl. rewrite lookup_insert_ne by congruence. reflexivity. }
  destruct (node_at (fs w) o) as [[c |] |];
    (eexists; split; [reflexivity |]; repeat split;
     first [reflexivity | exact Hins]).
Qed.

(** ** Construction of the poller *)

Section Init.

Variable workspace_path : string.

Local Abbreviation self := (new_poller workspace_path).

Lemma shared_dir_child :
  shared_dir self = child (workspace self) "shared".
Proof. reflexivity. Qed.

Lemma init_existing w :
  names_dir w (shared_dir self) ->
  HandoffPoller_init workspace_path w = (Ok self, w).
Proof.
  intros Hd. unfold names_dir in Hd. pose proof Hd as Hst.
  unfold sys_stat in Hst.
  unfold HandoffPoller_init, bind, mkdir_plain, try_except, os_mkdir,
    sys_mkdir.
  destruct (resolve (fs w) (cwd w) (shared_dir self)) as [e | loc];
    [discriminate |].
  destruct (node_at (fs w) loc) as [n |]; [| discriminate].
  cbv [bind path_is_dir raise ret]. rewrite Hd. reflexivity.
Qed.

End Init.

(** X12.  Constructing the poller either succeeds, and then the shared
    directory exists as a directory, the working directory is the
    same, no location other than that of the shared directory has
    changed, and nothing at all has changed when the directory was
    there already; or it raises an OS error, and then nothing has
    changed and the shared path does not name a directory. *)
Theorem init_ensures_shared_directory (workspace_path : string) (w : world) :
  let self := new_poller workspace_path in
  match HandoffPoller_init workspace_path w with
  | (Ok p, w') =>
      p = self /\ names_dir w' (shared_dir self) /\ cwd w' = cwd w
      /\ (names_dir w (shared_dir self) -> w' = w)
      /\ forall loc,
           resolve (fs w) (cwd w) (shared_dir self) <> inr loc ->
           node_at (fs w') loc = node_at (fs w) loc
  | (Raise e, w') =>
      w' = w /\ is_os_error e /\ ~ names_dir w (shared_dir self)
  end.
Proof.
  intros self. subst self.
  unfold HandoffPoller_init, bind, mkdir_plain, try_except, os_mkdir,
    sys_mkdir, names_dir.
  destruct (resolve (fs w) (cwd w) (shared_dir (new_poller workspace_path))) as [e | loc] eqn:Hr.
  { assert (Hst : sys_stat (fs w) (cwd w) (shared_dir (new_poller workspace_path)) = inl e)
      by (unfold sys_stat; rewrite Hr; reflexivity).
    destruct e; cbv [bind path_is_dir raise ret]; rewrite ?Hst;
      cbn [negb orb];
      (split; [reflexivity |]; split; [eexists _, _; reflexivity |]);
      discriminate. }
  destruct (node_at (fs w) loc) as [n |] eqn:Hn.
  - assert (Hst : sys_stat (fs w) (cwd w) (shared_dir (new_poller workspace_path)) = inr n)
      by (rewrite (sys_stat_at _ _ _ _ Hr), Hn; reflexivity).
    cbv [bind path_is_dir raise ret]. rewrite Hst.
    destruct n as [c |]; cbn [negb orb].
    + split; [reflexivity |]. split; [eexists _, _; reflexivity |].
      discriminate.
    + split; [reflexivity |]. split; [exact Hst |].
      repeat split; reflexivity.
  - assert (Hloc : loc <> []) by (intros ->; discriminate).
    cbv [ret]. cbn [fs cwd set_fs].
    split; [reflexivity |]. split.
    { rewrite (sys_stat_at _ _ _ loc).
      - rewrite node_at_insert by exact Hloc.
        destruct (decide (loc = loc)); [reflexivity | contradiction].
      - eapply resolve_extends; [apply fs_extends_mkdir, Hn | exact Hr]. }
    split; [reflexivity |]. split.
    { rewrite (sys_stat_at _ _ _ _ Hr), Hn. discriminate. }
    intros l Hl. rewrite node_at_insert by exact Hloc.
    destruct (decide (loc = l)); [congruence | reflexivity].
Qed.

(** X13.  The poller cannot be constructed when [shared] is a regular
    file ([FileExistsError]) or when the workspace does not exist
    ([FileNotFoundError]): the constructor raises that error, named
    after the shared directory, and the file system is not changed. *)
Theorem init_fails_without_shared_directory (workspace_path : string)
    (w : world) (errno : os_errno) :
  let self := new_poller workspace_path in
  (errno = EEXIST
   /\ exists c, sys_stat (fs w) (cwd w) (shared_dir self) = inr (File c))
  \/ (errno = ENOENT
      /\ sys_stat (fs w) (cwd w) (workspace self) = inl ENOENT) ->
  HandoffPoller_init workspace_path w
  = (Raise (OSError errno (path_str (shared_dir self))), w).
Proof.
  intros self H. subst self.
  unfold HandoffPoller_init, bind, mkdir_plain, try_except, os_mkdir,
    sys_mkdir.
  destruct H as [[-> [c Hst]] | [-> Hst]].
  - pose proof Hst as Hst'. unfold sys_stat in Hst'.
    destruct (resolve (fs w) (cwd w) (shared_dir (new_poller workspace_path)))
      as [e | loc]; [discriminate |].
    destruct (node_at (fs w) loc) as [n |]; [| discriminate].
    cbv [bind path_is_dir raise ret]. rewrite Hst. reflexivity.
  - assert (Hr : resolve (fs w) (cwd w)
                   (shared_dir (new_poller workspace_path)) = inl ENOENT).
    { rewrite shared_dir_child, resolve_child by discriminate.
      unfold sys_stat in Hst.
      destruct (resolve (fs w) (cwd w)
                  (workspace (new_poller workspace_path))) as [e | l].
      - congruence.
      - destruct (node_at (fs w) l); [discriminate | reflexivity]. }
    rewrite Hr. reflexivity.
Qed.

(** [shared] is a regular file. *)
Lemma init_fails_without_shared_directory_witness :
  let w := Examples.shared_is_file in
  ((EEXIST = EEXIST
    /\ exists c, sys_stat (fs w) (cwd w) (shared_dir Examples.self)
                 = inr (File c))
   \/ (EEXIST = ENOENT
       /\ sys_stat (fs w) (cwd w) (workspace Examples.self) = inl ENOENT))
  /\ HandoffPoller_init "/ws" w = (Raise (OSError EEXIST "/ws/shared"), w).
Proof.
  intros w.
  assert (H : (EEXIST = EEXIST
               /\ exists c, sys_stat (fs w) (cwd w)
                              (shared_dir (new_poller "/ws")) = inr (File c))
              \/ (EEXIST = ENOENT
                  /\ sys_stat (fs w) (cwd w) (workspace (new_poller "/ws"))
                     = inl ENOENT))
    by (left; split; [reflexivity | exists "x"; vm_compute; reflexivity]).
  split; [exact H |].
  exact (init_fails_without_shared_directory "/ws" w EEXIST H).
Defined.

(** ** The polling loop *)

Section Loop.

Variable rt : Runtime.
Variable workspace_path : string.

Local Abbreviation self := (new_poller workspace_path).


Lemma poll_loop_keeps interval turns w r w' :
  poll_loop rt self interval turns w = (r, w') ->
  keeps_all_but (input_file self) w w'.
Proof.
  revert w. induction turns as [| n IH]; intros w; simpl.
  - intros [= <- <-]. apply keeps_all_but_refl.
  - unfold bind at 1.
    destruct (poll_once rt self w) as [[b | e0] w1] eqn:Hp.
    + intros H. eapply keeps_all_but_trans; [| apply IH, H].
      eapply poll_once_keeps, Hp.
    + intros [= <- <-]. eapply poll_once_keeps, Hp.
Qed.

Lemma poll_loop_idle interval turns w e :
  sys_stat (fs w) (cwd w) (input_file self) = inl e ->
  poll_loop rt self interval turns w = (Ok tt, w).
Proof.
  intros H. induction turns as [| n IH]; simpl; [reflexivity |].
  unfold bind at 1. rewrite (poll_once_absent rt workspace_path w e H).
  exact IH.
Qed.

End Loop.

(** X14.  While the input path names nothing, the poller only waits:
    after any number of turns of the loop it is still running and the
    state is the one reached when the start was logged -- one line on
    the standard output, no file touched, nothing on the error
    stream. *)
Theorem run_poller_idle (rt : Runtime) (workspace_path : string)
    (interval turns : nat) (w : world) (e : os_errno) :
  let self := new_poller workspace_path in
  sys_stat (fs w) (cwd w) (input_file self) = inl e ->
  exists w',
    run_poller rt self interval turns w = (Ok tt, w')
    /\ fs w' = fs w /\ cwd w' = cwd w /\ stderr w' = stderr w
    /\ stdout w'
       = stdout w
         ++ [info_line (utc_clock rt (ticks w))
               ("Starting handoff poller (interval: "
                +:+ nat_to_string interval +:+ "s)")].
Proof.
  intros self H. subst self. eexists. split.
  - unfold run_poller, bind, try_except. cbn [log_info bind now_utc
      print_stdout].
    rewrite (poll_loop_idle rt workspace_path interval turns _ e); [| exact H].
    reflexivity.
  - repeat split; reflexivity.
Qed.

Lemma run_poller_idle_witness :
  sys_stat (fs Examples.idle) (cwd Examples.idle) (input_file Examples.self)
  = inl ENOENT
  /\ exists w',
       run_poller Reference.runtime Examples.self 10 7 Examples.idle
       = (Ok tt, w')
       /\ fs w' = fs Examples.idle /\ cwd w' = cwd Examples.idle
       /\ stderr w' = stderr Examples.idle
       /\ stdout w'
          = ["[2026-11-04T12:00:00+00:00] INFO: "
             +:+ "Starting handoff poller (interval: 10s)"].
Proof.
  assert (H : sys_stat (fs Examples.idle) (cwd Examples.idle)
                (input_file (new_poller "/ws")) = inl ENOENT)
    by (vm_compute; reflexivity).
  split; [exact H |].
  destruct (run_poller_idle Reference.runtime "/ws" 10 7 Examples.idle
              ENOENT H) as (w' & Hrun & Hfs & Hcwd & Herr & Hout).
  exists w'. repeat split; assumption.
Defined.



(** X16.  However long the poller runs and however it ends, it removes
    nothing and changes the kind of nothing but its own input file:
    every directory is still a directory and every regular file other
    than the input file still a regular file. *)
Theorem run_poller_keeps_other_files (rt : Runtime)
    (workspace_path : string) (interval turns : nat) (w : world) :
  let self := new_poller workspace_path in
  keeps_all_but (input_file self) w
    (snd (run_poller rt self interval turns w)).
Proof.
  intros self. subst self.
  unfold run_poller, bind at 1. cbn [log_info bind now_utc print_stdout].
  unfold try_except.
  match goal with
  | |- context [poll_loop rt ?s interval turns ?v] =>
      set (w0 := v);
      destruct (poll_loop rt s interval turns w0) as [[[] | e] w1] eqn:Hloop
  end.
  - eapply keeps_all_but_trans; [| eapply poll_loop_keeps, Hloop].
    apply keeps_all_but_same_fs; reflexivity.
  - eapply keeps_all_but_trans;
      [| eapply keeps_all_but_trans; [eapply poll_loop_keeps, Hloop |]];
      apply keeps_all_but_same_fs; reflexivity.
Qed.

(** ** The command line *)

Section Main.

Variable rt : Runtime.

Lemma os_path_exists_directory s w :
  s <> "" -> sys_stat (fs w) (cwd w) (parse_path s) = inr Dir ->
  os_path_exists s w = (Ok true, w).
Proof.
  intros Hs Hd. unfold os_path_exists. rewrite Hd.
  destruct s; [contradiction | reflexivity].
Qed.

Lemma workspace_of_shared workspace_path w :
  names_dir w (shared_dir (new_poller workspace_path)) ->
  sys_stat (fs w) (cwd w) (parse_path workspace_path) = inr Dir.
Proof.
  unfold names_dir, sys_stat. rewrite shared_dir_child. intros H.
  destruct (resolve (fs w) (cwd w)
              (child (workspace (new_poller workspace_path)) "shared"))
    as [e | l] eqn:Hr; [discriminate |].
  apply resolve_child_inv in Hr as (l0 & Hl0 & Hd0 & ->); [| discriminate].
  change (workspace (new_poller workspace_path))
    with (parse_path workspace_path) in Hl0.
  rewrite Hl0, Hd0. reflexivity.
Qed.

End Main.

(** X17.  When the workspace path, taken from [ASSISTANT_PROJECT_ROOT]
    or else the built-in default, is empty or names nothing, [main]
    prints "ERROR: Workspace not found: <path>" on the error stream and
    exits with status 1, whatever the command line; it creates
    nothing and prints nothing on the standard output. *)
Theorem main_without_workspace (rt : Runtime) (environ : gmap string string)
    (argv : list string) (turns : nat) (w : world) :
  let workspace :=
    default default_workspace (environ !! "ASSISTANT_PROJECT_ROOT") in
  workspace = ""
  \/ (exists e, sys_stat (fs w) (cwd w) (parse_path workspace) = inl e) ->
  exists w',
    main rt environ argv turns w = (Ok (SysExit 1), w')
    /\ fs w' = fs w /\ cwd w' = cwd w /\ stdout w' = stdout w
    /\ stderr w'
       = stderr w ++ ["ERROR: Workspace not found: " +:+ workspace].
Proof.
  intros workspace H.
  assert (Hex : os_path_exists workspace w = (Ok false, w)).
  { unfold os_path_exists. destruct H as [-> | [e He]]; [reflexivity |].
    rewrite He. destruct workspace; reflexivity. }
  eexists. split.
  - unfold main, bind at 1. fold workspace. rewrite Hex. reflexivity.
  - repeat split; reflexivity.
Qed.

(** No variable in the environment: the default path, which the
    example file system does not have. *)
Lemma main_without_workspace_witness :
  let w := Examples.idle in
  (default default_workspace
     ((∅ : gmap string string) !! "ASSISTANT_PROJECT_ROOT") = ""
   \/ (exists e, sys_stat (fs w) (cwd w)
                   (parse_path
                      (default default_workspace
                         ((∅ : gmap string string)
                            !! "ASSISTANT_PROJECT_ROOT"))) = inl e))
  /\ exists w',
       main Reference.runtime ∅ ["jules_runner.py"; "--check-once"] 0 w
       = (Ok (SysExit 1), w')
       /\ fs w' = fs w /\ cwd w' = cwd w /\ stdout w' = stdout w
       /\ stderr w'
          = ["ERROR: Workspace not found: /mnt/c/Users/david/jules-workspace"].
Proof.
  intros w.
  assert (H : default default_workspace
                ((∅ : gmap string string) !! "ASSISTANT_PROJECT_ROOT") = ""
              \/ (exists e, sys_stat (fs w) (cwd w)
                              (parse_path
                                 (default default_workspace
                                    ((∅ : gmap string string)
                                       !! "ASSISTANT_PROJECT_ROOT")))
                            = inl e))
    by (right; exists ENOENT; vm_compute; reflexivity).
  split; [exact H |].
  destruct (main_without_workspace Reference.runtime ∅
              ["jules_runner.py"; "--check-once"] 0 w H)
    as (w' & Hmain & Hfs & Hcwd & Hout & Herr).
  exists w'. repeat split; assumption.
Defined.

(** X18.  With [--check-once] on the command line and a workspace whose
    shared directory exists, [main] is one cycle followed by one line
    on the standard output: "Message processed successfully" when the
    cycle returned [True], "No messages to process" when it returned
    [False]; an exception of the cycle leaves [main] as it is, with
    nothing printed after it. *)
Theorem main_check_once (rt : Runtime) (environ : gmap string string)
    (argv : list string) (turns : nat) (w : world) :
  let workspace :=
    default default_workspace (environ !! "ASSISTANT_PROJECT_ROOT") in
  let self := new_poller workspace in
  workspace <> "" ->
  names_dir w (shared_dir self) ->
  In "--check-once" argv ->
  main rt environ argv turns w
  = match poll_once rt self w with
    | (Ok true, w') =>
        (Ok Returns, snd (print_stdout "Message processed successfully" w'))
    | (Ok false, w') =>
        (Ok Returns, snd (print_stdout "No messages to process" w'))
    | (Raise e, w') => (Raise e, w')
    end.
Proof.
  intros workspace self Hne Hd Hflag. subst self.
  unfold main. fold workspace. unfold bind at 1.
  rewrite (os_path_exists_directory workspace w Hne
             (workspace_of_shared workspace w Hd)).
  cbn [negb]. unfold bind at 1. rewrite (init_existing workspace w Hd).
  assert (Hex : existsb (String.eqb "--check-once") argv = true).
  { apply existsb_exists. exists "--check-once".
    split; [exact Hflag | apply String.eqb_refl]. }
  rewrite Hex. unfold bind at 1.
  destruct (poll_once rt (new_poller workspace) w) as [[[|] | e] w'];
    reflexivity.
Qed.

(** A check of an empty inbox. *)
Lemma main_check_once_witness :
  let environ : gmap string string :=
    {["ASSISTANT_PROJECT_ROOT" := "/ws"]} in
  let argv := ["jules_runner.py"; "--check-once"] in
  let w := Examples.idle in
  (default default_workspace (environ !! "ASSISTANT_PROJECT_ROOT") <> ""
   /\ names_dir w
        (shared_dir
           (new_poller
              (default default_workspace
                 (environ !! "ASSISTANT_PROJECT_ROOT"))))
   /\ In "--check-once" argv)
  /\ main Reference.runtime environ argv 0 w
     = (Ok Returns, snd (print_stdout "No messages to process" w)).
Proof.
  intros environ argv w.
  assert (H1 : default default_workspace
                 (environ !! "ASSISTANT_PROJECT_ROOT") <> "")
    by (vm_compute; discriminate).
  assert (H2 : names_dir w
                 (shared_dir
                    (new_poller
                       (default default_workspace
                          (environ !! "ASSISTANT_PROJECT_ROOT")))))
    by (unfold names_dir; vm_compute; reflexivity).
  assert (H3 : In "--check-once" argv) by (right; left; reflexivity).
  split; [repeat split; assumption |].
  rewrite (main_check_once Reference.runtime environ argv 0 w H1 H2 H3).
  vm_compute. reflexivity.
Defined.

(** ** The count of [handle_message] and the end of a message *)

(** X20.  The number in "Message acknowledged: N characters" is
    [len(payload.content)]: the characters of a string, but the items
    of a list and the keys of a mapping; a content that has no length
    (a number, a boolean, [null]) makes the handler fail, and the
    response carries [status: error] with the text of that
    [TypeError]. *)
Theorem message_content_is_counted (rt : Runtime) (workspace_path : string)
    (d p : list (string * pyval)) (v : pyval) (w : world) :
  let self := new_poller workspace_path in
  let answer (n : nat) :=
    (Ok (response_of rt d (utc_clock rt (ticks w))
           (received_payload n (utc_clock rt (S (ticks w))))),
     tick (tick w)) in
  dict_get "action" d = Some (PStr "message") ->
  dict_get "payload" d = Some (PDict p) ->
  dict_get "content" p = Some v ->
  process_message rt self (PDict d) w
  = match v with
    | PStr s => answer (String.length s)
    | PList xs => answer (length xs)
    | PDict kvs => answer (length kvs)
    | _ =>
        (Ok (response_of rt d (utc_clock rt (ticks w))
               (PDict [("status", PStr "error");
                       ("message",
                        PStr ("Error processing message: "
                              +:+ exn_str rt
                                    (TypeError
                                       ("object of type '" +:+ type_name v
                                        +:+ "' has no len()"))))])),
         tick w)
    end.
Proof.
  intros self answer Ha Hp Hc. subst self answer.
  rewrite process_message_unfold. cbv zeta.
  unfold dict_get_default. rewrite Ha, Hp.
  change (dispatch rt (new_poller workspace_path) (PStr "message") (PDict p))
    with (handle_message rt (PDict p)).
  unfold handle_message, bind at 1, py_get, ret, dict_get_default.
  rewrite Hc. destruct v; reflexivity.
Qed.

(** [content: 42]. *)
Lemma message_content_is_counted_witness :
  let d := [("action", PStr "message");
            ("payload", PDict [("content", PInt 42)])] in
  (dict_get "action" d = Some (PStr "message")
   /\ dict_get "payload" d = Some (PDict [("content", PInt 42)])
   /\ dict_get "content" [("content", PInt 42)] = Some (PInt 42))
  /\ process_message Reference.runtime Examples.self (PDict d) Examples.idle
     = (Ok (PDict [("id", PStr "2026-11-04T12:00:00+00:00");
                   ("from", PStr "jules");
                   ("for", PStr "cc");
                   ("action", PStr "message_response");
                   ("payload",
                    PDict [("status", PStr "error");
                           ("message",
                            PStr ("Error processing message: "
                                  +:+ "object of type 'int' has no len()"))])]),
        tick Examples.idle).
Proof.
  intros d.
  assert (H1 : dict_get "action" d = Some (PStr "message")) by reflexivity.
  assert (H2 : dict_get "payload" d = Some (PDict [("content", PInt 42)]))
    by reflexivity.
  assert (H3 : dict_get "content" [("content", PInt 42)] = Some (PInt 42))
    by reflexivity.
  split; [repeat split; assumption |].
  exact (message_content_is_counted Reference.runtime "/ws" d _ (PInt 42)
           Examples.idle H1 H2 H3).
Defined.

(** X21.  A message is handled once.  After a cycle that returned
    [True] the input file is gone, so the next cycle returns [False]
    and changes nothing; the polling loop, started on the message, ends
    every later turn in the state the first turn left. *)
Theorem message_is_processed_once (rt : Runtime) (workspace_path : string)
    (w w' : world) :
  let self := new_poller workspace_path in
  poll_once rt self w = (Ok true, w') ->
  sys_stat (fs w') (cwd w') (input_file self) = inl ENOENT
  /\ poll_once rt self w' = (Ok false, w')
  /\ forall interval turns,
       poll_loop rt self interval (S turns) w = (Ok tt, w').
Proof.
  intros self Hpoll. subst self.
  assert (Hgone : sys_stat (fs w') (cwd w')
                    (input_file (new_poller workspace_path)) = inl ENOENT).
  { destruct (poll_once_cases rt workspace_path w)
      as [(v & Hv & _)
         | (L & data & w3 & stamp & HL & HLd & [Hc3 Hf3] & Hdata
            & [(_ & v & Hv & _) | (Hnd & v & Hv & Hc & Hf)])];
      try congruence.
    rewrite Hv in Hpoll. injection Hpoll as <-.
    destruct (archive_name_ordinary stamp) as (Hdd & Hai & _).
    pose proof (resolve_extends _ _ _ _ _ Hf3 HL) as HL3.
    pose proof (proj1 (Hf3 _) HLd) as HLd3.
    destruct (archived_state (fs w3) (cwd w)
                (shared_dir (new_poller workspace_path)) L
                "claude-to-jules-message.md" (archive_name stamp) data
                HL3 HLd3 Hdata Hnd ltac:(congruence) ltac:(discriminate) Hdd)
      as (Hnone & _ & _).
    rewrite Hf, Hc, input_file_child. exact Hnone. }
  split; [exact Hgone |].
  split; [exact (poll_once_absent rt workspace_path w' ENOENT Hgone) |].
  intros interval turns. simpl. unfold bind at 1. rewrite Hpoll.
  exact (poll_loop_idle rt workspace_path interval turns w' ENOENT Hgone).
Qed.

Lemma message_is_processed_once_witness :
  let w := Examples.inbox Examples.doc_hello in
  let w' := snd (Examples.run_poll w) in
  poll_once Reference.runtime Examples.self w = (Ok true, w')
  /\ sys_stat (fs w') (cwd w') (input_file Examples.self) = inl ENOENT
  /\ poll_once Reference.runtime Examples.self w' = (Ok false, w')
  /\ forall interval turns,
       poll_loop Reference.runtime Examples.self interval (S turns) w
       = (Ok tt, w').
Proof.
  intros w w'.
  assert (H : poll_once Reference.runtime (new_poller "/ws") w = (Ok true, w'))
    by (vm_compute; reflexivity).
  split; [exact H |].
  exact (message_is_processed_once Reference.runtime "/ws" w w' H).
Defined.
